(** * new_look_scraper: a shallow embedding of [new_look_scraper.py]

    The script talks to two things it does not control: the HTTP server and
    the file system.  Both are modelled by an environment record of oracles
    indexed by a logical clock, and the program itself is written in a state
    and exception monad over a record holding the clock, the files, the
    directories and the trace of observable events (requests, sleeps,
    console messages, opens).

    Modelling decisions:
    - a Python [str] is a Rocq [string]; one character stands for one code
      point below 256;
    - a value decoded from JSON is a [pyval]; Python's [False] is
      [JBool false], so that [if not x] is [negb (truthy x)] everywhere;
    - a file is the text written to it, under the path it was opened with;
      an [open] either raises [OSError] or takes effect at once;
    - the output file is a buffered text file: a row handed to the csv
      writer waits in the buffer of the file object, and reaches the file
      when the buffer spills (the world decides when) or when the [with]
      block closes the file; a failing disk is noticed only then;
    - an image is written and its file closed within one statement, inside
      one [try]: its write either raises [OSError] or takes effect;
    - [requests.get] returns a response or raises; what it raises is a
      [RequestException] or anything else (a host that cannot be parsed
      makes urllib3 raise its own [LocationParseError]);
    - [BeautifulSoup(...).get_text()] and [str()] on values that are not
      strings belong to libraries, and are fields of the environment. *)

From Stdlib Require Import ZArith List String Ascii Bool Lia.
From stdpp Require Import base option list strings gmap.

Import ListNotations.
Local Open Scope string_scope.
Local Open Scope Z_scope.
Local Open Scope list_scope.
Set Warnings "-register-all".
Set Default Proof Using "Type".

(** ** Configuration constants of the module *)

Definition MAX_RETRIES : nat := 3.
Definition SLEEP_TIME : Z := 1.
Definition BASE_URL : string := "https://www.newlook.com/uk".
Definition JSON_URL : string :=
  BASE_URL +:+ "/womens/footwear/c/uk-womens-footwear/data-48.json".
Definition DEFAULT_FILENAME : string := "new_look.csv".
Definition IMAGE_DIR : string := "img".
Definition HTTP_OK : Z := 200.

(** ** Python values coming out of [r.json()] *)

(** A float is kept as the fraction it denotes; [json.loads] also accepts
    NaN and the infinities. *)
Inductive pyfloat : Type :=
| FNan
| FInf (negative : bool)
| FFinite (num : Z) (den : positive).

Inductive pyval : Type :=
| JNull
| JBool (b : bool)
| JInt (z : Z)
| JFloat (f : pyfloat)
| JStr (s : string)
| JArr (l : list pyval)
| JObj (kvs : list (string * pyval)).

(** Python's [False], the failure value of [get_json] and [get_page_count]. *)
Definition PyFalse : pyval := JBool false.

Inductive exn : Type :=
| KeyError
| IndexError
| TypeError
| AttributeError
| OSError
| RequestException
| LocationParseError.   (* urllib3's, not a [RequestException] *)

(** Outcome of an expression that may raise. *)
Inductive res (A : Type) : Type :=
| Ok (a : A)
| Exc (e : exn).
Arguments Ok {A} a.
Arguments Exc {A} e.

Definition res_bind {A B} (r : res A) (k : A -> res B) : res B :=
  match r with
  | Ok a => k a
  | Exc e => Exc e
  end.

Declare Scope res_scope.
Delimit Scope res_scope with res.
Notation "x <~ r ;; k" := (res_bind r (fun x => k))
  (at level 100, r at next level, right associativity) : res_scope.

(** [bool(v)] *)
Definition truthy (v : pyval) : bool :=
  match v with
  | JNull => false
  | JBool b => b
  | JInt z => negb (z =? 0)
  | JFloat (FFinite n _) => negb (n =? 0)
  | JFloat _ => true
  | JStr s => negb (String.eqb s "")
  | JArr l => match l with [] => false | _ :: _ => true end
  | JObj kvs => match kvs with [] => false | _ :: _ => true end
  end.

Fixpoint assoc (k : string) (kvs : list (string * pyval)) : option pyval :=
  match kvs with
  | [] => None
  | (k', v) :: rest => if String.eqb k k' then Some v else assoc k rest
  end.

(** [v[k]] with a string key *)
Definition getitem (v : pyval) (k : string) : res pyval :=
  match v with
  | JObj kvs => match assoc k kvs with Some x => Ok x | None => Exc KeyError end
  | _ => Exc TypeError
  end.

(** [v[0]] *)
Definition getitem0 (v : pyval) : res pyval :=
  match v with
  | JArr (x :: _) => Ok x
  | JArr [] => Exc IndexError
  | JStr (String c _) => Ok (JStr (String c EmptyString))
  | JStr EmptyString => Exc IndexError
  | JObj _ => Exc KeyError
  | _ => Exc TypeError
  end.

(** [v.get(k, default)] *)
Definition dict_get (v : pyval) (k : string) (default : pyval) : res pyval :=
  match v with
  | JObj kvs => Ok (match assoc k kvs with Some x => x | None => default end)
  | _ => Exc AttributeError
  end.

(** [prefix + v] for a string literal [prefix] *)
Definition str_add (prefix : string) (v : pyval) : res string :=
  match v with
  | JStr s => Ok (prefix +:+ s)
  | _ => Exc TypeError
  end.

Fixpoint chars_of (s : string) : list pyval :=
  match s with
  | EmptyString => []
  | String c s' => JStr (String c EmptyString) :: chars_of s'
  end.

(** [iter(v)]: what a [for] loop over [v] visits *)
Definition iter (v : pyval) : res (list pyval) :=
  match v with
  | JArr l => Ok l
  | JObj kvs => Ok (map (fun kv => JStr (fst kv)) kvs)
  | JStr s => Ok (chars_of s)
  | _ => Exc TypeError
  end.

(** [range(0, v)] as the list of page indices *)
Definition range0 (v : pyval) : res (list nat) :=
  match v with
  | JInt z => Ok (seq 0 (Z.to_nat z))
  | JBool b => Ok (seq 0 (if b then 1 else 0))
  | _ => Exc TypeError
  end.

(** ** [re.sub(r'\s+', ' ', s)] *)

(** Whitespace below code point 256 as [\s] sees it on a [str]:
    tab to carriage return, the four separators 28..31, space, NEL and
    the no-break space. *)
Definition is_space (c : ascii) : bool :=
  let n := nat_of_ascii c in
  ((9 <=? n) && (n <=? 13) || (28 <=? n) && (n <=? 32)
   || (n =? 133) || (n =? 160))%nat.

(** One left-to-right scan: [in_run] tells that the previous character
    belonged to the whitespace run being replaced. *)
Fixpoint sub_spaces (in_run : bool) (s : string) : string :=
  match s with
  | EmptyString => EmptyString
  | String c s' =>
      if is_space c
      then (if in_run then sub_spaces true s'
            else String " " (sub_spaces true s'))
      else String c (sub_spaces false s')
  end.

Definition re_sub_spaces (s : string) : string := sub_spaces false s.

(** ** Product records *)

(** The dictionary built by [get_items]: always the same five keys.  [name]
    and [price] are copied from the payload as they are; the other three
    are strings by construction. *)
Record item : Type := mkItem {
  name : pyval;
  url : string;
  description : string;
  price : pyval;
  image : string
}.

(** [item['image'] = v] *)
Definition set_image (it : item) (v : string) : item :=
  {| name := name it; url := url it; description := description it;
     price := price it; image := v |}.

(** ** Paths *)

Definition slash : ascii := "/"%char.

Fixpoint has_slash (s : string) : bool :=
  match s with
  | EmptyString => false
  | String c s' => Ascii.eqb c slash || has_slash s'
  end.

(** [s.split('/')[-1]] *)
Fixpoint last_segment (s : string) : string :=
  match s with
  | EmptyString => EmptyString
  | String c s' =>
      if has_slash s' then last_segment s'
      else if Ascii.eqb c slash then s' else s
  end.

Fixpoint ends_with_slash (s : string) : bool :=
  match s with
  | EmptyString => false
  | String c EmptyString => Ascii.eqb c slash
  | String _ s' => ends_with_slash s'
  end.

(** [os.path.join(a, b)] on POSIX, for a relative [b] *)
Definition path_join2 (a b : string) : string :=
  if String.eqb a "" || ends_with_slash a then a +:+ b
  else a +:+ "/" +:+ b.

(** [os.path.join(cwd, IMAGE_DIR, name)]; [name] holds no slash. *)
Definition path_join3 (a b c : string) : string :=
  path_join2 (path_join2 a b) c.

(** ** Rows of the [csv] writer with [delimiter=';'] *)

Definition dquote : ascii := Eval cbv in ascii_of_nat 34.
Definition CRLF : string := String "013" (String "010" EmptyString).

Definition special (c : ascii) : bool :=
  Ascii.eqb c ";" || Ascii.eqb c dquote || Ascii.eqb c "013" || Ascii.eqb c "010".

Fixpoint needs_quotes (s : string) : bool :=
  match s with
  | EmptyString => false
  | String c s' => special c || needs_quotes s'
  end.

Fixpoint double_quotes (s : string) : string :=
  match s with
  | EmptyString => EmptyString
  | String c s' =>
      if Ascii.eqb c dquote then String c (String c (double_quotes s'))
      else String c (double_quotes s')
  end.

(** QUOTE_MINIMAL with doubled quote characters *)
Definition csv_field (s : string) : string :=
  if needs_quotes s
  then String dquote (double_quotes s) +:+ String dquote EmptyString
  else s.

Fixpoint csv_join (fields : list string) : string :=
  match fields with
  | [] => EmptyString
  | [f] => csv_field f
  | f :: rest => csv_field f +:+ ";" +:+ csv_join rest
  end.

(** The text one [writer.writerow(fields)] adds to the file; a row made of
    a single empty field is written as two quote characters. *)
Definition csv_line (fields : list string) : string :=
  match fields with
  | [EmptyString] => String dquote (String dquote CRLF)
  | _ => csv_join fields +:+ CRLF
  end.

Definition titles : list string :=
  ["Item name"; "URL"; "Description"; "Price"; "Image"].

(** ** The world outside the program *)

Record response : Type := mkResponse {
  status_code : Z;
  content : string;           (* [r.content] *)
  json_body : option pyval     (* [r.json()]; [None] when it raises *)
}.

Inductive mode : Type := ModeW | ModeA | ModeWB.

(** Every oracle takes the clock value at which the call is made, so that
    the same request may fail now and succeed later. *)
Record env : Type := mkEnv {
  (* [requests.get] for a URL and the [page] parameter, if any; [None] when
     the call raises *)
  requests_get : string -> option nat -> nat -> option response;
  (* the exception [requests.get] raises when it raises *)
  requests_raises : string -> option nat -> nat -> exn;
  (* does [open(path, mode)] raise [OSError]? *)
  open_raises : string -> mode -> nat -> bool;
  (* does a write to [path] raise [OSError]? *)
  write_raises : string -> nat -> bool;
  (* is the buffer of the text file open at [path] written out now? *)
  spills : string -> nat -> bool;
  (* does [os.mkdir(path)] raise [OSError]? *)
  mkdir_raises : string -> nat -> bool;
  (* [os.getcwd()] *)
  getcwd : string;
  (* [BeautifulSoup(markup, 'lxml').get_text()] *)
  get_text : string -> string;
  (* [str(v)] as the csv writer applies it to a value that is neither a
     string nor [None] *)
  py_str : pyval -> string
}.

Inductive message : Type :=
| MsgStatus (code : Z) (u : string)    (* Error {code} while accessing {url}. *)
| MsgRequest (u : string)              (* Error: can't execute HTTP request ... *)
| MsgJson                              (* Error while getting JSON: ... *)
| MsgNotSuccessful                     (* Error: API request via JSON was not successful. *)
| MsgPageCount (e : exn)               (* Error while getting page count in JSON: ... *)
| MsgItem (e : exn)                    (* Error while parsing JSON for an item: ... *)
| MsgImageDisk                         (* Error: can't save an image to the disk. *)
| MsgImage (e : exn)                   (* Error while retrieving an image from URL: ... *)
| MsgCsvDisk                           (* Error: can't write to CSV file. *)
| MsgCsv (e : exn)                     (* Error while saving scraped data: ... *)
| MsgMkdir                             (* Can't create directory for images. + FATAL_ERROR_STR *)
| MsgFatal                             (* FATAL_ERROR_STR *)
| MsgFirstPage                         (* Accessing first page. *)
| MsgPage (n : nat) (page_count : pyval) (* Scraping page {page + 1} of {page_count}. *)
| MsgImages (n : nat)                  (* Scraping images for page {page + 1}. *)
| MsgDone.                             (* Scraping process done. *)

Inductive event : Type :=
| EvGet (u : string) (params : option nat)
| EvSleep (seconds : Z)
| EvOpen (path : string) (m : mode)
| EvPrint (msg : message).

#[projections(primitive)]
Record state : Type := mkState {
  clock : nat;
  files : gmap string string;
  dirs : gset string;
  trace : list event;
  (* the rows that wait in the buffer of the output file *)
  pending : string
}.

(** ** The monad of the program: state and exceptions *)

Definition M (A : Type) : Type := state -> res A * state.

Definition ret {A} (a : A) : M A := fun s => (Ok a, s).
Definition raise {A} (e : exn) : M A := fun s => (Exc e, s).
Definition lift {A} (r : res A) : M A := fun s => (r, s).

Definition bind {A B} (m : M A) (k : A -> M B) : M B :=
  fun s =>
    match m s with
    | (Ok a, s') => k a s'
    | (Exc e, s') => (Exc e, s')
    end.

(** The body of a [try]: its outcome is handed to the [except]/[else]
    branches as a value. *)
Definition attempt {A} (m : M A) : M (res A) :=
  fun s => (Ok (fst (m s)), snd (m s)).

Declare Scope py_scope.
Delimit Scope py_scope with py.
Notation "x <- m ;; k" := (bind m (fun x => k))
  (at level 100, m at next level, right associativity) : py_scope.
Notation "m ;;; k" := (bind m (fun _ => k))
  (at level 100, right associativity) : py_scope.
Local Open Scope py_scope.

(** The state with [evs] added to its trace. *)
Definition log (evs : list event) (s : state) : state :=
  {| clock := clock s; files := files s; dirs := dirs s;
     trace := trace s ++ evs; pending := pending s |}.

Definition emit (e : event) : M unit := fun s => (Ok tt, log [e] s).

Definition print (m : message) : M unit := emit (EvPrint m).
Definition sleep (seconds : Z) : M unit := emit (EvSleep seconds).

(** One call to the outside world advances the clock. *)
Definition tick : M nat :=
  fun s => (Ok (clock s), {| clock := S (clock s); files := files s;
                             dirs := dirs s; trace := trace s;
                             pending := pending s |}).

Definition set_file (path data : string) : M unit :=
  fun s => (Ok tt, {| clock := clock s; files := <[path := data]> (files s);
                      dirs := dirs s; trace := trace s;
                      pending := pending s |}).

Definition read_file (path : string) : M string :=
  fun s => (Ok (default EmptyString (files s !! path)), s).

Definition get_pending : M string := fun s => (Ok (pending s), s).

Definition set_pending (data : string) : M unit :=
  fun s => (Ok tt, {| clock := clock s; files := files s; dirs := dirs s;
                      trace := trace s; pending := data |}).

Definition path_exists (path : string) : M bool :=
  fun s => (Ok (bool_decide (path ∈ dirs s)
                || bool_decide (is_Some (files s !! path))), s).

(** ** The program *)

Section Program.

Variable E : env.

(** [requests.get(url, headers=HEADERS, timeout=TIMEOUT, params=params)] *)
Definition http_get (u : string) (params : option nat) : M response :=
  emit (EvGet u params) ;;;
  t <- tick ;;
  match requests_get E u params t with
  | None => raise (requests_raises E u params t)
  | Some r => ret r
  end.

(** [open(path, m)]: the write modes empty the file, append mode keeps it
    and creates it when missing. *)
Definition open_ (path : string) (m : mode) : M unit :=
  emit (EvOpen path m) ;;;
  t <- tick ;;
  if open_raises E path m t then raise OSError
  else match m with
       | ModeA => old <- read_file path ;; set_file path old
       | ModeW | ModeWB => set_file path EmptyString
       end.

(** [data] goes to the file opened at [path] *)
Definition write_ (path data : string) : M unit :=
  t <- tick ;;
  if write_raises E path t then raise OSError
  else old <- read_file path ;; set_file path (old +:+ data).

(** The buffer of the text file opened at [path] is written out, unless it
    is empty: then nothing is written.  The text is gone from the buffer
    whether the write succeeds or not. *)
Definition flush_ (path : string) : M unit :=
  data <- get_pending ;;
  if String.eqb data EmptyString then ret tt
  else set_pending EmptyString ;;; write_ path data.

(** [writer.writerow(fields)] on the text file opened at [path]: the row
    joins the buffer, which is written out when it spills. *)
Definition writerow (path : string) (fields : list string) : M unit :=
  buffered <- get_pending ;;
  set_pending (buffered +:+ csv_line fields) ;;;
  t <- tick ;;
  if spills E path t then flush_ path else ret tt.

(** [with open(path, ...) as f: body], once the open has succeeded: the
    buffer starts empty, and the file is closed, its buffer written out,
    however [body] ends; an error of the close takes the place of the
    outcome of [body]. *)
Definition closing (path : string) (body : M unit) : M unit :=
  set_pending EmptyString ;;;
  outcome <- attempt body ;;
  flush_ path ;;;
  lift outcome.

(** [os.mkdir(path)] *)
Definition mkdir (path : string) : M unit :=
  t <- tick ;;
  if mkdir_raises E path t then raise OSError
  else fun s => (Ok tt, {| clock := clock s; files := files s;
                           dirs := {[path]} ∪ dirs s; trace := trace s;
                           pending := pending s |}).

(** *** [get_response] *)

(** The [for attempt in range(0, MAX_RETRIES)] loop, by the number of
    attempts left; the code after the loop is the [O] case. *)
Fixpoint get_response_loop (attempts : nat) (u : string) (params : option nat)
  : M (option response) :=
  match attempts with
  | O => print (MsgRequest u) ;;; ret None
  | S attempts' =>
      r <- attempt (http_get u params) ;;
      match r with
      | Exc RequestException =>
          sleep SLEEP_TIME ;;;
          get_response_loop attempts' u params
      | Exc e => raise e
      | Ok r =>
          sleep SLEEP_TIME ;;;
          if negb (status_code r =? HTTP_OK)
          then print (MsgStatus (status_code r) u) ;;; ret None
          else ret (Some r)
      end
  end.

Definition get_response (u : string) (params : option nat)
  : M (option response) :=
  get_response_loop MAX_RETRIES u params.

(** *** [get_json] *)

Definition get_json (page : nat) : M pyval :=
  r <- get_response JSON_URL (Some page) ;;
  match r with
  | None => ret PyFalse
  | Some r =>
      match json_body r with
      | None => print MsgJson ;;; ret PyFalse
      | Some json =>
          success <- lift (dict_get json "success" PyFalse) ;;
          if negb (truthy success)
          then print MsgNotSuccessful ;;; ret PyFalse
          else ret json
      end
  end.

(** *** [get_page_count] *)

Definition page_count_field (json : pyval) : res pyval :=
  (data <~ getitem json "data" ;;
   pagination <~ getitem data "pagination" ;;
   getitem pagination "numberOfPages")%res.

Definition get_page_count (json : pyval) : M pyval :=
  match page_count_field json with
  | Exc e => print (MsgPageCount e) ;;; ret PyFalse
  | Ok page_count => ret page_count
  end.

(** *** [get_items] *)

(** The body of the [try] in the loop: the four entries of the dictionary
    literal in their order, then the description. *)
Definition new_item (it : pyval) : res item :=
  (nm <~ getitem it "name" ;;
   u <~ getitem it "url" ;;
   u' <~ str_add BASE_URL u ;;
   p <~ getitem it "price" ;;
   pr <~ getitem p "formattedValue" ;;
   imgs <~ getitem it "images" ;;
   img <~ getitem0 imgs ;;
   iu <~ getitem img "url" ;;
   im <~ str_add "https:" iu ;;
   d <~ getitem it "description" ;;
   (* any markup that is not a string makes BeautifulSoup raise; the
      exception is rendered as a TypeError *)
   match d with
   | JStr markup =>
       Ok {| name := nm; url := u'; description := re_sub_spaces (get_text E markup);
             price := pr; image := im |}
   | _ => Exc TypeError
   end)%res.

Fixpoint get_items_loop (results : list pyval) (items : list item)
  : M (list item) :=
  match results with
  | [] => ret items
  | it :: rest =>
      match new_item it with
      | Exc e => print (MsgItem e) ;;; get_items_loop rest items
      | Ok new => get_items_loop rest (items ++ [new])
      end
  end.

Definition results_field (json : pyval) : res (list pyval) :=
  (data <~ getitem json "data" ;;
   results <~ getitem data "results" ;;
   iter results)%res.

Definition get_items (json : pyval) : M (list item) :=
  results <- lift (results_field json) ;;
  get_items_loop results [].

(** *** [save_image] *)

Definition save_image (u filename : string) : M unit :=
  r <- get_response u None ;;
  outcome <- attempt (
    open_ filename ModeWB ;;;
    match r with
    | None => raise AttributeError          (* [False.content] *)
    | Some resp => write_ filename (content resp)
    end) ;;
  match outcome with
  | Ok _ => ret tt
  | Exc OSError => print MsgImageDisk
  | Exc e => print (MsgImage e)
  end.

(** *** [save_items] *)

Definition image_filename (image_url : string) : string :=
  path_join3 (getcwd E) IMAGE_DIR (last_segment image_url).

(** What the csv writer makes of one field value. *)
Definition field_text (v : pyval) : string :=
  match v with
  | JStr s => s
  | JNull => EmptyString
  | _ => py_str E v
  end.

(** [[item.get(key, '') for key in keys]] as text *)
Definition row_of (it : item) : list string :=
  [field_text (name it); url it; description it; field_text (price it);
   image it].

(** The record as it is written: its image field is the local reference. *)
Definition saved (it : item) : item :=
  set_image it ("file:///" +:+ image_filename (image it)).

Fixpoint save_items_loop (items : list item) (filename : string) : M unit :=
  match items with
  | [] => ret tt
  | it :: rest =>
      save_image (image it) (image_filename (image it)) ;;;
      writerow filename (row_of (saved it)) ;;;
      save_items_loop rest filename
  end.

Definition save_items (items : list item) (filename : string)
  (first_page : bool) : M unit :=
  outcome <- attempt (
    open_ filename (if first_page then ModeW else ModeA) ;;;
    closing filename (
      (if first_page then writerow filename titles else ret tt) ;;;
      save_items_loop items filename)) ;;
  match outcome with
  | Ok _ => ret tt
  | Exc OSError => print MsgCsvDisk
  | Exc e => print (MsgCsv e)
  end.

(** *** [scrape] *)

(** The loop [for page in range(0, page_count)] in two halves.  The first
    half yields the page to work on: [json] is the variable the loop reuses
    for page 0 and overwrites afterwards; [None] stands for the [return]
    after the fatal message. *)
Definition fetch_page (page : nat) (page_count json : pyval)
  : M (option pyval) :=
  if (0 <? page)%nat
  then
    print (MsgPage (page + 1) page_count) ;;;
    json' <- get_json page ;;
    if negb (truthy json')
    then print MsgFatal ;;; ret None
    else ret (Some json')
  else ret (Some json).

(** The second half: the last two statements of the loop body. *)
Definition extract_and_write (page : nat) (json : pyval) : M unit :=
  print (MsgImages (page + 1)) ;;;
  items <- get_items json ;;
  save_items items DEFAULT_FILENAME (page =? 0)%nat.

Fixpoint scrape_loop (pages : list nat) (page_count json : pyval) : M unit :=
  match pages with
  | [] => print MsgDone
  | page :: rest =>
      fetched <- fetch_page page page_count json ;;
      match fetched with
      | None => ret tt
      | Some json =>
          extract_and_write page json ;;;
          scrape_loop rest page_count json
      end
  end.

(** The first block of [scrape]: [false] stands for its early [return]. *)
Definition ensure_image_dir : M bool :=
  present <- path_exists IMAGE_DIR ;;
  if present then ret true
  else
    made <- attempt (mkdir IMAGE_DIR) ;;
    match made with
    | Ok _ => ret true
    | Exc OSError => print MsgMkdir ;;; ret false
    | Exc e => raise e
    end.

Definition scrape : M unit :=
  ready <- ensure_image_dir ;;
  if negb ready then ret tt
  else
    print MsgFirstPage ;;;
    json <- get_json 0 ;;
    if negb (truthy json) then print MsgFatal
    else
      page_count <- get_page_count json ;;
      if negb (truthy page_count) then print MsgFatal
      else
        pages <- lift (range0 page_count) ;;
        scrape_loop pages page_count json.

End Program.

(** ** Vocabulary of the statements *)

(** The items [get_items] returns for a list of entries, and the messages it
    prints for the entries it skips. *)
Definition extract (E : env) (results : list pyval) : list item :=
  omap (fun it => match new_item E it with Ok new => Some new | Exc _ => None end)
       results.

Definition skipped (E : env) (results : list pyval) : list event :=
  omap (fun it => match new_item E it with
                  | Ok _ => None
                  | Exc e => Some (EvPrint (MsgItem e))
                  end) results.

(** The value [get_page_count] returns. *)
Definition page_count_of (json : pyval) : pyval :=
  match page_count_field json with
  | Ok page_count => page_count
  | Exc _ => PyFalse
  end.

(** The text of a sequence of rows. *)
Fixpoint csv_text (rows : list (list string)) : string :=
  match rows with
  | [] => EmptyString
  | r :: rest => csv_line r +:+ csv_text rest
  end.

(** The rows [save_items] writes for a batch. *)
Definition rows_of (E : env) (items : list item) : list (list string) :=
  map (fun it => row_of E (saved E it)) items.

(** Every request in [evs] is immediately followed by the delay. *)
Fixpoint throttled (evs : list event) : bool :=
  match evs with
  | [] => true
  | EvGet _ _ :: rest =>
      match rest with
      | EvSleep n :: _ => (n =? SLEEP_TIME) && throttled rest
      | _ => false
      end
  | _ :: rest => throttled rest
  end.

(** The number of requests in [evs]. *)
Fixpoint requests (evs : list event) : nat :=
  match evs with
  | [] => 0%nat
  | EvGet _ _ :: rest => S (requests rest)
  | _ :: rest => requests rest
  end.

(** The state with the clock moved [n] calls ahead. *)
Definition later (n : nat) (s : state) : state :=
  {| clock := clock s + n; files := files s; dirs := dirs s;
     trace := trace s; pending := pending s |}.

Definition with_file (path data : string) (s : state) : state :=
  {| clock := clock s; files := <[path := data]> (files s); dirs := dirs s;
     trace := trace s; pending := pending s |}.

(** The state with [data] waiting in the buffer of the output file. *)
Definition buffered (data : string) (s : state) : state :=
  {| clock := clock s; files := files s; dirs := dirs s; trace := trace s;
     pending := data |}.

(** The content of a file, empty when it does not exist. *)
Definition content_of (path : string) (s : state) : string :=
  default EmptyString (files s !! path).

(** The text the file at [path] holds once the buffer of the output file
    is written out. *)
Definition written (path : string) (s : state) : string :=
  content_of path s +:+ pending s.

(** What a call changes besides the clock and the trace: at most the file
    at [path]. *)
Definition touches (path : string) (s s' : state) : Prop :=
  dirs s' = dirs s
  /\ pending s' = pending s
  /\ (forall p, p <> path -> files s' !! p = files s !! p)
  /\ exists evs, trace s' = trace s ++ evs.

(** From [s] to [s'] the file at [path] has not disappeared. *)
Definition keeps (path : string) (s s' : state) : Prop :=
  is_Some (files s !! path) -> is_Some (files s' !! path).

(** From [s] to [s'] the trace has only grown. *)
Definition grows (s s' : state) : Prop :=
  exists evs, trace s' = trace s ++ evs.

(** Whenever [requests.get] raises for [u] and [params], what it raises is
    a [RequestException]: every attempt is answered or fails with a
    transport error. *)
Definition only_transport_errors (E : env) (u : string) (params : option nat)
  : Prop :=
  forall t, requests_get E u params t = None ->
            requests_raises E u params t = RequestException.


(** The five cells of the row written for the record [it]. *)
Definition cells (E : env) (it : item) : list string :=
  [field_text E (name it); url it; description it; field_text E (price it);
   "file:///" +:+ image_filename E (image it)].

(** The [try] of [save_image], run after a fetch that returned [r]. *)
Definition image_outcome (E : env) (r : option response) (filename : string) (s : state)
  : state :=
  let opened := later 1 (log [EvOpen filename ModeWB] s) in
  if open_raises E filename ModeWB (clock s)
  then log [EvPrint MsgImageDisk] opened
  else
    match r with
    | None =>
        log [EvPrint (MsgImage AttributeError)]
          (with_file filename EmptyString opened)
    | Some resp =>
        if write_raises E filename (S (clock s))
        then log [EvPrint MsgImageDisk]
               (later 1 (with_file filename EmptyString opened))
        else with_file filename (content resp)
               (later 1 (with_file filename EmptyString opened))
    end.

Definition open_mode (first_page : bool) : mode :=
  if first_page then ModeW else ModeA.

(** The text the file starts from once [save_items] has opened it and
    written the header, if any. *)
Definition start_text (first_page : bool) (filename : string) (s : state)
  : string :=
  if first_page then csv_line titles else content_of filename s.

(** Page [n] cannot be fetched: [get_json] returns its failure value
    whenever it is asked for it. *)
Definition page_fails (E : env) (n : nat) : Prop :=
  forall s, fst (get_json E n s) = Ok PyFalse.

(** The items of the pages [pages], page after page, when [entries p] is
    the list of entries of page [p]. *)
Definition all_items (E : env) (entries : nat -> list pyval)
  (pages : list nat) : list item :=
  concat (map (fun p => extract E (entries p)) pages).

(** ** Sample worlds *)

Definition fresh : state :=
  {| clock := 0; files := ∅; dirs := ∅; trace := []; pending := EmptyString |}.

Definition shoe (title path picture : string) (images : list pyval) : pyval :=
  JObj [("name", JStr title);
        ("url", JStr path);
        ("price", JObj [("formattedValue", JStr "GBP 19.99")]);
        ("images", JArr images);
        ("description", JStr picture)].

Definition picture_of (u : string) : pyval := JObj [("url", JStr u)].

Definition boots : pyval :=
  shoe "Black Boots" "/shop/boots" "Leather   boots"
       [picture_of "//media.newlook.com/boots.jpg"].
Definition sandals : pyval :=
  shoe "Tan Sandals" "/shop/sandals" "Flat sandals"
       [picture_of "//media.newlook.com/sandals.jpg"].
Definition trainers : pyval :=
  shoe "White Trainers" "/shop/trainers" "Canvas trainers"
       [picture_of "//media.newlook.com/trainers.jpg"].
Definition unpictured : pyval :=
  shoe "Grey Slippers" "/shop/slippers" "Soft slippers" [].

Definition listing (page_count : Z) (results : list pyval) : pyval :=
  JObj [("success", JBool true);
        ("data", JObj [("pagination", JObj [("numberOfPages", JInt page_count)]);
                       ("results", JArr results)])].

(** A first page that announces one page and carries no list of results. *)
Definition listing_without_results : pyval :=
  JObj [("success", JBool true);
        ("data", JObj [("pagination", JObj [("numberOfPages", JInt 1)])])].

Definition page_response (json : pyval) : response :=
  {| status_code := 200; content := EmptyString; json_body := Some json |}.
Definition picture : response :=
  {| status_code := 200; content := "JPEG"; json_body := None |}.
Definition server_error : response :=
  {| status_code := 500; content := EmptyString; json_body := None |}.

(** A world given by what the server answers for each page and for an
    image, and by the paths that cannot be opened. *)
Definition world (pages : nat -> option response) (images : option response)
  (locked : string -> bool) : env :=
  {| requests_get := fun _ params _ =>
       match params with Some p => pages p | None => images end;
     requests_raises := fun _ _ _ => RequestException;
     open_raises := fun path _ _ => locked path;
     write_raises := fun _ _ => false;
     spills := fun _ _ => false;
     mkdir_raises := fun _ _ => false;
     getcwd := "/home/user";
     get_text := fun markup => markup;
     py_str := fun _ => EmptyString |}.

Definition shop_entries (p : nat) : list pyval :=
  match p with
  | O => [boots; sandals]
  | _ => [trainers]
  end.

Definition shop_payload (p : nat) : pyval := listing 2 (shop_entries p).

(** Two pages, every request answered, every file writable. *)
Definition shop : env :=
  world (fun p => Some (page_response (shop_payload p))) (Some picture)
        (fun _ => false).

(** The same shop, seen from a place where the output file cannot be
    opened. *)
Definition shop_readonly : env :=
  world (fun p => Some (page_response (shop_payload p))) (Some picture)
        (String.eqb DEFAULT_FILENAME).

(** Five pages announced; the server answers 500 for page 2. *)
Definition shop_page2_down : env :=
  world (fun p => if (p =? 2)%nat then Some server_error
                  else Some (page_response (listing 5 [boots])))
        (Some picture) (fun _ => false).

(** A first page that announces zero pages. *)
Definition empty_shop : env :=
  world (fun _ => Some (page_response (listing 0 []))) (Some picture)
        (fun _ => false).

(** A first page without its list of results. *)
Definition broken_shop : env :=
  world (fun _ => Some (page_response listing_without_results)) (Some picture)
        (fun _ => false).

(** No request gets through. *)
Definition offline : env := world (fun _ => None) None (fun _ => false).

(** No request gets through and no file can be opened. *)
Definition offline_locked : env := world (fun _ => None) None (fun _ => true).





Definition boots_item : item :=
  {| name := JStr "Black Boots";
     url := BASE_URL +:+ "/shop/boots";
     description := "Leather boots";
     price := JStr "GBP 19.99";
     image := "https://media.newlook.com/boots.jpg" |}.

Definition sandals_item : item :=
  {| name := JStr "Tan Sandals";
     url := BASE_URL +:+ "/shop/sandals";
     description := "Flat sandals";
     price := JStr "GBP 19.99";
     image := "https://media.newlook.com/sandals.jpg" |}.


Definition boots_url : string := "https://media.newlook.com/boots.jpg".
Definition boots_path : string := "/home/user/img/boots.jpg".

(** The lines of the output file for the header and for the sample
    records. *)
Definition header_line : string :=
  "Item name;URL;Description;Price;Image" +:+ CRLF.
Definition boots_line : string :=
  "Black Boots;https://www.newlook.com/uk/shop/boots;Leather boots;GBP 19.99;file:////home/user/img/boots.jpg"
  +:+ CRLF.
Definition sandals_line : string :=
  "Tan Sandals;https://www.newlook.com/uk/shop/sandals;Flat sandals;GBP 19.99;file:////home/user/img/sandals.jpg"
  +:+ CRLF.
Definition trainers_line : string :=
  "White Trainers;https://www.newlook.com/uk/shop/trainers;Canvas trainers;GBP 19.99;file:////home/user/img/trainers.jpg"
  +:+ CRLF.

(** A disk on which an earlier run left an output file and a picture. *)
Definition earlier_run : state :=
  with_file DEFAULT_FILENAME "old rows" (with_file boots_path "JPEG" fresh).

(** ** Vocabulary of the further properties *)

(** No whitespace other than the space character, and no two spaces in a
    row; [after_space] tells that the previous character was a space. *)
Fixpoint single_spaced (after_space : bool) (s : string) : bool :=
  match s with
  | EmptyString => true
  | String c s' =>
      if is_space c
      then Ascii.eqb c " " && negb after_space && single_spaced true s'
      else single_spaced false s'
  end.

(** What [get_items] guarantees about a record it returns. *)
Definition well_formed (it : item) : Prop :=
  (exists path, url it = BASE_URL +:+ path)
  /\ (exists rest, image it = "https:" +:+ rest)
  /\ single_spaced false (description it) = true.

(** A world that differs from [world] in what can go wrong on the disk and
    in when the server starts to answer. *)
Definition harsh_world (answers_from : nat) (pages : nat -> option response)
  (images : option response) (locked full no_mkdir : bool) : env :=
  {| requests_get := fun _ params t =>
       if (t <? answers_from)%nat then None
       else match params with Some p => pages p | None => images end;
     requests_raises := fun _ _ _ => RequestException;
     open_raises := fun _ _ _ => locked;
     write_raises := fun _ _ => full;
     spills := fun _ _ => false;
     mkdir_raises := fun _ _ => no_mkdir;
     getcwd := "/home/user";
     get_text := fun markup => markup;
     py_str := fun _ => EmptyString |}.

(** The server raises twice, then answers. *)
Definition flaky_shop : env :=
  harsh_world 2 (fun p => Some (page_response (shop_payload p)))
              (Some picture) false false false.

(** Every write raises. *)
Definition full_disk : env :=
  harsh_world 0 (fun p => Some (page_response (shop_payload p)))
              (Some picture) false true false.

(** The world [E] with a buffer that spills at every row. *)
Definition with_hasty_buffer (E : env) : env :=
  {| requests_get := requests_get E;
     requests_raises := requests_raises E;
     open_raises := open_raises E;
     write_raises := write_raises E;
     spills := fun _ _ => true;
     mkdir_raises := mkdir_raises E;
     getcwd := getcwd E;
     get_text := get_text E;
     py_str := py_str E |}.

(** The image directory cannot be created. *)
Definition no_image_dir : env :=
  harsh_world 0 (fun p => Some (page_response (shop_payload p)))
              (Some picture) false false true.

(** The server answers 500 for every page. *)
Definition failing_shop : env :=
  world (fun _ => Some server_error) (Some picture) (fun _ => false).

(** The server answers with a JSON list instead of an object. *)
Definition list_shop : env :=
  world (fun _ => Some (page_response (JArr []))) (Some picture)
        (fun _ => false).

(** A first page whose page count is the string "3". *)
Definition text_count_shop : env :=
  world (fun _ => Some (page_response
           (JObj [("success", JBool true);
                  ("data", JObj [("pagination",
                                  JObj [("numberOfPages", JStr "3")]);
                                 ("results", JArr [boots])])])))
        (Some picture) (fun _ => false).

(** A first page whose page count is negative. *)
Definition negative_count_shop : env :=
  world (fun _ => Some (page_response (listing (-1) [boots]))) (Some picture)
        (fun _ => false).

(** [m] takes every state to one related to it by [R]. *)
Definition respects (R : state -> state -> Prop) {A} (m : M A) : Prop :=
  forall s, R s (snd (m s)).

(** From [s] to [s'] the trace has only grown, and every request added to
    it is followed by the delay. *)
Definition paced (s s' : state) : Prop :=
  exists evs, trace s' = trace s ++ evs /\ throttled evs = true.

(** From [s] to [s'] no directory has been removed or added except the
    image directory, and no file has changed except the output file and
    the files named after images. *)
Definition confined (E : env) (s s' : state) : Prop :=
  (forall path, path <> DEFAULT_FILENAME ->
                (forall u, path <> image_filename E u) ->
                files s' !! path = files s !! path)
  /\ (forall dir, dir <> IMAGE_DIR -> dir ∈ dirs s' <-> dir ∈ dirs s).

(** * Proofs *)

(** ** Running the monad *)

Lemma bind_ok {A B} (m : M A) (k : A -> M B) s a s' :
  m s = (Ok a, s') -> bind m k s = k a s'.
Proof. unfold bind. now intros ->. Qed.

Lemma bind_exc {A B} (m : M A) (k : A -> M B) s e s' :
  m s = (Exc e, s') -> bind m k s = (Exc e, s').
Proof. unfold bind. now intros ->. Qed.

Lemma attempt_run {A} (m : M A) s r s' :
  m s = (r, s') -> attempt m s = (Ok r, s').
Proof. unfold attempt. now intros ->. Qed.

Lemma log_log evs1 evs2 s : log evs2 (log evs1 s) = log (evs1 ++ evs2) s.
Proof. unfold log. cbn. now rewrite app_assoc. Qed.

Lemma log_nil s : log [] s = s.
Proof. unfold log. now rewrite app_nil_r. Qed.

Lemma later_later n m s : later m (later n s) = later (n + m) s.
Proof. unfold later. cbn. f_equal. lia. Qed.

Lemma log_later evs n s : log evs (later n s) = later n (log evs s).
Proof. reflexivity. Qed.

Lemma tick_run s : tick s = (Ok (clock s), later 1 s).
Proof. unfold tick, later. cbn. do 2 f_equal. lia. Qed.

Lemma later_0 s : later 0 s = s.
Proof. unfold later. now rewrite Nat.add_0_r. Qed.

Lemma emit_run e s : emit e s = (Ok tt, log [e] s).
Proof. reflexivity. Qed.

Lemma print_run m s : print m s = (Ok tt, log [EvPrint m] s).
Proof. reflexivity. Qed.

Lemma sleep_run n s : sleep n s = (Ok tt, log [EvSleep n] s).
Proof. reflexivity. Qed.

(** Rewriting a state built from [log] and [later] to [later n (log evs s)]. *)
Ltac tidy :=
  repeat (rewrite ?log_later, ?later_later, ?log_log, ?later_0, ?log_nil;
          cbn [app Nat.add]).

(** One step of a [bind] whose first action is described by [lem]. *)
Ltac run lem := erewrite bind_ok by (apply lem).

(** ** Relations every step of a run respects *)

Section Respects.

Variable R : state -> state -> Prop.
Context `{!PreOrder R}.

Lemma respects_ret {A} (a : A) : respects R (ret a).
Proof using All. intros s. reflexivity. Qed.

Lemma respects_raise {A} (e : exn) : respects R (@raise A e).
Proof using All. intros s. reflexivity. Qed.

Lemma respects_lift {A} (r : res A) : respects R (lift r).
Proof using All. intros s. reflexivity. Qed.

Lemma respects_bind {A B} (m : M A) (k : A -> M B) :
  respects R m -> (forall a, respects R (k a)) -> respects R (bind m k).
Proof using All.
  intros Hm Hk s. unfold bind. specialize (Hm s).
  destruct (m s) as [[a|e] s1]; cbn [snd] in *; [|exact Hm].
  etransitivity; [exact Hm|apply Hk].
Qed.

Lemma respects_attempt {A} (m : M A) : respects R m -> respects R (attempt m).
Proof using All. intros Hm s. apply Hm. Qed.

End Respects.

(** Splitting a goal [respects R m] along the structure of [m]; what is
    left are the calls the hint base does not know. *)
Create HintDb respects discriminated.

Ltac respect :=
  repeat first
    [ solve [auto with respects]
    | lazymatch goal with
      | |- respects _ (ret _) => apply respects_ret; exact _
      | |- respects _ (raise _) => apply respects_raise; exact _
      | |- respects _ (lift _) => apply respects_lift; exact _
      | |- respects _ (attempt _) => apply respects_attempt; [exact _|]
      | |- respects _ (bind _ _) => apply respects_bind; [exact _| |intros ?]
      | |- respects _ (if ?x then _ else _) => destruct x
      | |- respects _ (match ?x with _ => _ end) => destruct x
      end ].

(** ** The outside world *)

Section World.

Variable E : env.

Lemma http_get_run u p s :
  http_get E u p s =
  (match requests_get E u p (clock s) with
   | None => Exc (requests_raises E u p (clock s))
   | Some r => Ok r
   end, later 1 (log [EvGet u p] s)).
Proof.
  unfold http_get. run emit_run. run tick_run. cbn [clock log].
  now destruct (requests_get E u p (clock s)).
Qed.

Lemma open_run path m s :
  open_ E path m s =
  if open_raises E path m (clock s)
  then (Exc OSError, later 1 (log [EvOpen path m] s))
  else (Ok tt,
        with_file path
          (match m with ModeA => content_of path s | _ => EmptyString end)
          (later 1 (log [EvOpen path m] s))).
Proof.
  unfold open_. run emit_run. run tick_run. cbn [clock log].
  destruct (open_raises E path m (clock s)); [reflexivity|].
  now destruct m.
Qed.

Lemma write_run path data s :
  write_ E path data s =
  if write_raises E path (clock s)
  then (Exc OSError, later 1 s)
  else (Ok tt, with_file path (content_of path s +:+ data) (later 1 s)).
Proof.
  unfold write_. run tick_run.
  now destruct (write_raises E path (clock s)).
Qed.

Lemma get_pending_run s : get_pending s = (Ok (pending s), s).
Proof. reflexivity. Qed.

Lemma set_pending_run data s : set_pending data s = (Ok tt, buffered data s).
Proof. reflexivity. Qed.

Lemma flush_run path s :
  flush_ E path s =
  if String.eqb (pending s) EmptyString then (Ok tt, s)
  else if write_raises E path (clock s)
  then (Exc OSError, later 1 (buffered EmptyString s))
  else (Ok tt,
        with_file path (written path s) (later 1 (buffered EmptyString s))).
Proof.
  unfold flush_. run get_pending_run.
  destruct (String.eqb (pending s) EmptyString); [reflexivity|].
  run set_pending_run. rewrite write_run. reflexivity.
Qed.

Lemma writerow_run path fields s :
  writerow E path fields s =
  let joined := later 1 (buffered (pending s +:+ csv_line fields) s) in
  if spills E path (clock s) then flush_ E path joined else (Ok tt, joined).
Proof.
  unfold writerow. run get_pending_run. run set_pending_run. run tick_run.
  cbn [clock buffered]. now destruct (spills E path (clock s)).
Qed.

(** ** [get_response] *)

(** Whatever the server does, [get_response] only moves the clock and adds
    to the trace, it sends at most as many requests as it has attempts, and
    when it returns each of its requests is followed by the delay. *)
Lemma get_response_loop_state n u p s :
  exists r k evs,
    get_response_loop E n u p s = (r, later k (log evs s))
    /\ requests evs = k
    /\ (k <= n)%nat
    /\ (forall v, r = Ok v -> throttled evs = true).
Proof.
  revert s. induction n as [|n IH]; intros s.
  - exists (Ok None), 0%nat, [EvPrint (MsgRequest u)]. cbn [get_response_loop].
    run print_run. tidy. repeat split; auto.
  - cbn [get_response_loop].
    erewrite bind_ok by (apply attempt_run, http_get_run).
    destruct (requests_get E u p (clock s)) as [r|].
    + run sleep_run. tidy.
      destruct (negb (status_code r =? HTTP_OK)).
      * run print_run. tidy.
        exists (Ok None), 1%nat,
          [EvGet u p; EvSleep SLEEP_TIME; EvPrint (MsgStatus (status_code r) u)].
        repeat split; auto. lia.
      * exists (Ok (Some r)), 1%nat, [EvGet u p; EvSleep SLEEP_TIME].
        repeat split; auto. lia.
    + destruct (requests_raises E u p (clock s)) eqn:Hexn.
      all: try (exists (Exc (requests_raises E u p (clock s))), 1%nat, [EvGet u p];
                rewrite Hexn; repeat split; auto; [lia|discriminate]).
      run sleep_run. tidy.
      destruct (IH (later 1 (log [EvGet u p; EvSleep SLEEP_TIME] s)))
        as (r & k & evs & Hrun & Hk & Hle & Hthr).
      rewrite Hrun. tidy.
      exists r, (S k), ([EvGet u p; EvSleep SLEEP_TIME] ++ evs).
      split; [reflexivity|]. split; [cbn; now rewrite Hk|].
      split; [lia|]. intros v Hv. cbn. now apply (Hthr v).
Qed.

(** When every attempt is answered or fails with a transport error,
    [get_response] returns: it does not raise. *)
Lemma get_response_loop_returns n u p s :
  only_transport_errors E u p ->
  exists r, fst (get_response_loop E n u p s) = Ok r.
Proof.
  intros Honly. revert s. induction n as [|n IH]; intros s.
  - exists None. cbn [get_response_loop]. now run print_run.
  - cbn [get_response_loop].
    erewrite bind_ok by (apply attempt_run, http_get_run).
    destruct (requests_get E u p (clock s)) as [r|] eqn:Hget.
    + run sleep_run.
      destruct (negb (status_code r =? HTTP_OK)).
      * run print_run. now exists None.
      * now exists (Some r).
    + rewrite (Honly _ Hget). run sleep_run. apply IH.
Qed.

Lemma get_response_loop_run n u p s :
  only_transport_errors E u p ->
  exists r k evs,
    get_response_loop E n u p s = (Ok r, later k (log evs s))
    /\ throttled evs = true
    /\ requests evs = k
    /\ (k <= n)%nat.
Proof.
  intros Honly.
  destruct (get_response_loop_state n u p s)
    as (r & k & evs & Hrun & Hk & Hle & Hthr).
  destruct (get_response_loop_returns n u p s Honly) as (v & Hv).
  rewrite Hrun in Hv. cbn [fst] in Hv. subst r.
  exists v, k, evs. repeat split; eauto.
Qed.

Lemma get_response_loop_raising n u p s :
  only_transport_errors E u p ->
  (forall t, requests_get E u p t = None) ->
  get_response_loop E n u p s =
  (Ok None,
   later n (log (concat (replicate n [EvGet u p; EvSleep SLEEP_TIME])
                 ++ [EvPrint (MsgRequest u)]) s)).
Proof.
  intros Honly Hraise. revert s. induction n as [|n IH]; intros s.
  - cbn [get_response_loop]. run print_run. now tidy.
  - cbn [get_response_loop].
    erewrite bind_ok by (apply attempt_run, http_get_run).
    rewrite Hraise, (Honly _ (Hraise _)). run sleep_run. rewrite IH. tidy.
    reflexivity.
Qed.

End World.

(** ** Whitespace collapsing *)

Lemma sub_spaces_fixed (s : string) :
  (forall b, sub_spaces false (sub_spaces b s) = sub_spaces b s)
  /\ sub_spaces true (sub_spaces true s) = sub_spaces true s.
Proof.
  induction s as [|c s [IHf IHt]]; [split; [intros []|]; reflexivity|].
  split.
  - intros b. simpl. destruct (is_space c) eqn:Hc.
    + destruct b; [apply IHf|].
      simpl. change (is_space " ") with true. simpl. now rewrite IHt.
    + simpl. rewrite Hc. now rewrite IHf.
  - simpl. destruct (is_space c) eqn:Hc; [exact IHt|].
    simpl. rewrite Hc. now rewrite IHf.
Qed.

(** ** Strings and paths *)

Lemma append_cons x (a b : string) : String x a +:+ b = String x (a +:+ b).
Proof. reflexivity. Qed.

Lemma append_nil_l (b : string) : EmptyString +:+ b = b.
Proof. reflexivity. Qed.

Lemma append_assoc (a b c : string) : (a +:+ b) +:+ c = a +:+ (b +:+ c).
Proof.
  induction a as [|x a IH]; [reflexivity|].
  now rewrite !append_cons, IH.
Qed.

Lemma append_nil_r (a : string) : a +:+ EmptyString = a.
Proof.
  induction a as [|x a IH]; [reflexivity|].
  now rewrite append_cons, IH.
Qed.

Lemma csv_text_app rows1 rows2 :
  csv_text (rows1 ++ rows2) = csv_text rows1 +:+ csv_text rows2.
Proof.
  induction rows1 as [|r rows1 IH]; cbn [csv_text app]; [reflexivity|].
  now rewrite IH, append_assoc.
Qed.

Lemma has_slash_app a b : has_slash (a +:+ b) = has_slash a || has_slash b.
Proof.
  induction a as [|x a IH]; [reflexivity|].
  rewrite append_cons. cbn [has_slash]. now rewrite IH, orb_assoc.
Qed.

Lemma ends_with_slash_app a b :
  b <> EmptyString -> ends_with_slash (a +:+ b) = ends_with_slash b.
Proof.
  intros Hb. induction a as [|x a IH]; [reflexivity|].
  rewrite append_cons. cbn [ends_with_slash]. rewrite <- IH.
  destruct (a +:+ b) eqn:Hab; [|reflexivity].
  destruct a, b; try discriminate Hab; congruence.
Qed.

(** A path made by [os.path.join(cwd, IMAGE_DIR, name)] holds a slash. *)
Lemma image_filename_has_slash E u : has_slash (image_filename E u) = true.
Proof.
  unfold image_filename, path_join3.
  set (d := path_join2 (getcwd E) IMAGE_DIR).
  assert (Hd : ends_with_slash d = false /\ d <> EmptyString).
  { unfold d, path_join2.
    destruct (String.eqb (getcwd E) "" || ends_with_slash (getcwd E)).
    - split; [now rewrite ends_with_slash_app|].
      destruct (getcwd E); discriminate.
    - split; [now rewrite !ends_with_slash_app|].
      destruct (getcwd E); discriminate. }
  destruct Hd as [Hend Hne]. unfold path_join2. rewrite Hend.
  destruct (String.eqb_spec d ""); [contradiction|]. cbn [orb].
  rewrite !has_slash_app. cbn. now rewrite orb_true_r.
Qed.

(** So no image is ever saved over the output file. *)
Lemma image_filename_not_output E u : image_filename E u <> DEFAULT_FILENAME.
Proof.
  intros Heq. pose proof (image_filename_has_slash E u) as H.
  rewrite Heq in H. discriminate.
Qed.

(** ** Fetching and reading a page *)

Section Pages.

Variable E : env.

(** [get_json] only moves the clock and adds to the trace. *)
Lemma get_json_run page s :
  exists r k evs, get_json E page s = (r, later k (log evs s)).
Proof.
  unfold get_json, get_response.
  destruct (get_response_loop_state E MAX_RETRIES JSON_URL (Some page) s)
    as ([r|e] & k & evs & Hrun & _);
    [|erewrite bind_exc by exact Hrun; now eexists _, _, _].
  run Hrun. destruct r as [r|]; [|now exists (Ok PyFalse), k, evs].
  destruct (json_body r) as [json|].
  - unfold lift at 1.
    destruct (dict_get json "success" PyFalse) as [success|e] eqn:Hget.
    + erewrite bind_ok by reflexivity.
      destruct (negb (truthy success)).
      * run print_run. tidy. now eexists _, _, _.
      * now eexists _, _, _.
    + erewrite bind_exc by reflexivity. now eexists _, _, _.
  - run print_run. tidy. now eexists _, _, _.
Qed.

Lemma get_json_files page s : files (snd (get_json E page s)) = files s.
Proof. destruct (get_json_run page s) as (r & k & evs & ->). reflexivity. Qed.

Lemma get_page_count_run json s :
  get_page_count json s =
  (Ok (page_count_of json),
   log (match page_count_field json with
        | Ok _ => []
        | Exc e => [EvPrint (MsgPageCount e)]
        end) s).
Proof.
  unfold get_page_count, page_count_of.
  destruct (page_count_field json); [now rewrite log_nil|].
  now run print_run.
Qed.

Lemma extract_cons it rest :
  extract E (it :: rest) =
  match new_item E it with
  | Ok new => new :: extract E rest
  | Exc _ => extract E rest
  end.
Proof. unfold extract. simpl. now destruct (new_item E it). Qed.

Lemma skipped_cons it rest :
  skipped E (it :: rest) =
  match new_item E it with
  | Ok _ => skipped E rest
  | Exc e => EvPrint (MsgItem e) :: skipped E rest
  end.
Proof. unfold skipped. simpl. now destruct (new_item E it). Qed.

Lemma extract_app l1 l2 : extract E (l1 ++ l2) = extract E l1 ++ extract E l2.
Proof. apply omap_app. Qed.

Lemma get_items_loop_run results items s :
  get_items_loop E results items s =
  (Ok (items ++ extract E results), log (skipped E results) s).
Proof.
  revert items s. induction results as [|it rest IH]; intros items s.
  - cbn. now rewrite app_nil_r, log_nil.
  - cbn [get_items_loop]. rewrite extract_cons, skipped_cons.
    destruct (new_item E it) as [new|e].
    + rewrite IH. now rewrite <- app_assoc.
    + run print_run. rewrite IH. now tidy.
Qed.

(** [get_items] returns the items of the entries that can be read, in
    their order, whenever the list of entries itself can be reached. *)
Lemma get_items_run json results s :
  results_field json = Ok results ->
  get_items E json s = (Ok (extract E results), log (skipped E results) s).
Proof.
  intros H. unfold get_items, lift. rewrite H.
  erewrite bind_ok by reflexivity. apply get_items_loop_run.
Qed.

Lemma get_items_raises json e s :
  results_field json = Exc e -> get_items E json s = (Exc e, s).
Proof. intros H. unfold get_items, lift. rewrite H. reflexivity. Qed.

End Pages.

(** ** Saving images and rows *)

Section Saving.

Variable E : env.

Lemma touches_refl path s : touches path s s.
Proof. repeat split. exists []. now rewrite app_nil_r. Qed.

Lemma touches_idle path k evs s : touches path s (later k (log evs s)).
Proof. repeat split. now exists evs. Qed.

Lemma touches_trans path s1 s2 s3 :
  touches path s1 s2 -> touches path s2 s3 -> touches path s1 s3.
Proof.
  intros (Hd1 & Hp1 & Hf1 & evs1 & Ht1) (Hd2 & Hp2 & Hf2 & evs2 & Ht2).
  repeat split.
  - congruence.
  - congruence.
  - intros p Hp. now rewrite Hf2, Hf1.
  - exists (evs1 ++ evs2). now rewrite Ht2, Ht1, app_assoc.
Qed.

Lemma save_image_after u filename s r s1 :
  get_response E u None s = (Ok r, s1) ->
  save_image E u filename s = (Ok tt, image_outcome E r filename s1).
Proof.
  intros Hfetch. unfold save_image. run Hfetch. unfold image_outcome.
  pose proof (open_run E filename ModeWB s1) as Hopen.
  destruct (open_raises E filename ModeWB (clock s1)).
  - erewrite bind_ok by (apply attempt_run, (bind_exc _ _ _ _ _ Hopen)).
    reflexivity.
  - destruct r as [resp|].
    + pose proof (write_run E filename (content resp)
        (with_file filename EmptyString
           (later 1 (log [EvOpen filename ModeWB] s1)))) as Hwrite.
      cbn [clock later with_file log] in Hwrite.
      replace (clock s1 + 1)%nat with (S (clock s1)) in Hwrite by lia.
      destruct (write_raises E filename (S (clock s1))).
      * erewrite bind_ok
          by (apply attempt_run; erewrite bind_ok by exact Hopen; exact Hwrite).
        reflexivity.
      * erewrite bind_ok
          by (apply attempt_run; erewrite bind_ok by exact Hopen; exact Hwrite).
        unfold content_of. cbn [files with_file later log].
        rewrite lookup_insert_eq. reflexivity.
    + erewrite bind_ok
        by (apply attempt_run; erewrite bind_ok by exact Hopen; reflexivity).
      reflexivity.
Qed.

(** What [get_response] raises leaves [save_image] at once: the fetch
    stands before the [try]. *)
Lemma save_image_raises u filename s e s1 :
  get_response E u None s = (Exc e, s1) ->
  save_image E u filename s = (Exc e, s1).
Proof. intros Hfetch. unfold save_image. now rewrite (bind_exc _ _ _ _ _ Hfetch). Qed.

Lemma image_outcome_touches r filename s :
  touches filename s (image_outcome E r filename s).
Proof.
  unfold image_outcome.
  destruct (open_raises E filename ModeWB (clock s)).
  - repeat split. eexists. cbn. now rewrite <- app_assoc.
  - destruct r as [resp|];
      [destruct (write_raises E filename (S (clock s)))|].
    all: repeat split;
      [ intros p Hp; cbn; now rewrite ?lookup_insert_ne
      | eexists; cbn; rewrite <- ?app_assoc; reflexivity ].
Qed.

(** However it ends, [save_image] touches no file but its own. *)
Lemma save_image_state u filename s :
  exists r s', save_image E u filename s = (r, s')
               /\ touches filename s s'
               /\ (r = Ok tt
                   \/ exists e, r = Exc e
                                /\ get_response E u None s = (Exc e, s')).
Proof.
  destruct (get_response_loop_state E MAX_RETRIES u None s)
    as ([r|e] & k & evs & Hrun & _).
  - eexists _, _. split; [apply (save_image_after _ _ _ _ _ Hrun)|].
    split; [|now left].
    eapply touches_trans; [apply touches_idle|apply image_outcome_touches].
  - eexists _, _. split; [apply (save_image_raises _ _ _ _ _ Hrun)|].
    split; [apply touches_idle|]. right. now exists e.
Qed.

(** When every attempt is answered or fails with a transport error,
    [save_image] returns. *)
Lemma save_image_run u filename s :
  only_transport_errors E u None ->
  exists s', save_image E u filename s = (Ok tt, s')
             /\ touches filename s s'.
Proof.
  intros Honly.
  destruct (get_response_loop_run E MAX_RETRIES u None s Honly)
    as (r & k & evs & Hrun & _).
  eexists. split; [apply (save_image_after _ _ _ _ _ Hrun)|].
  eapply touches_trans; [apply touches_idle|apply image_outcome_touches].
Qed.

End Saving.

(** ** No file disappears *)

Section Keeps.

Variable E : env.
Variable kept : string.

#[local] Instance keeps_preorder : PreOrder (keeps kept).
Proof. split; [now intros s|intros s1 s2 s3 H1 H2 H; auto]. Qed.

Lemma keeps_same_files s s' : files s' = files s -> keeps kept s s'.
Proof. intros H. unfold keeps. now rewrite H. Qed.

Lemma keeps_with_file path data s s' :
  files s' = files s -> keeps kept s (with_file path data s').
Proof.
  intros H Hsome. cbn [files with_file]. rewrite H.
  destruct (decide (path = kept)) as [->|Hne].
  - rewrite lookup_insert_eq. eauto.
  - now rewrite lookup_insert_ne.
Qed.

Lemma print_keeps m : respects (keeps kept) (print m).
Proof. intros s. now apply keeps_same_files. Qed.

Lemma tick_keeps : respects (keeps kept) tick.
Proof. intros s. now apply keeps_same_files. Qed.

Lemma get_pending_keeps : respects (keeps kept) get_pending.
Proof. intros s. now apply keeps_same_files. Qed.

Lemma set_pending_keeps data : respects (keeps kept) (set_pending data).
Proof. intros s. now apply keeps_same_files. Qed.

Lemma open_keeps path m : respects (keeps kept) (open_ E path m).
Proof.
  intros s. rewrite open_run.
  destruct (open_raises E path m (clock s)).
  - now apply keeps_same_files.
  - now apply keeps_with_file.
Qed.

Lemma write_keeps path data : respects (keeps kept) (write_ E path data).
Proof.
  intros s. rewrite write_run.
  destruct (write_raises E path (clock s)).
  - now apply keeps_same_files.
  - now apply keeps_with_file.
Qed.

Lemma get_response_keeps u params :
  respects (keeps kept) (get_response E u params).
Proof.
  intros s.
  destruct (get_response_loop_state E MAX_RETRIES u params s)
    as (r & k & evs & Hrun & _).
  unfold get_response. rewrite Hrun. now apply keeps_same_files.
Qed.

Hint Resolve print_keeps tick_keeps get_pending_keeps set_pending_keeps
  open_keeps write_keeps get_response_keeps : respects.

Lemma header_and_rows_keep filename (first_page : bool) items :
  respects (keeps kept)
    ((if first_page then writerow E filename titles else ret tt) ;;;
     save_items_loop E items filename).
Proof.
  assert (Hrow : forall fields, respects (keeps kept) (writerow E filename fields))
    by (intros fields; unfold writerow, flush_; respect).
  assert (Hloop : respects (keeps kept) (save_items_loop E items filename)).
  { induction items as [|it rest IH]; cbn [save_items_loop];
      unfold save_image; respect. }
  respect.
Qed.

End Keeps.

Section Rows.

Variable E : env.

Lemma written_untouched filename path s s' :
  path <> filename -> touches path s s' ->
  written filename s' = written filename s.
Proof.
  intros Hne (_ & Hpending & Hfiles & _). unfold written, content_of.
  rewrite Hpending, Hfiles by auto. reflexivity.
Qed.

(** With a file that takes every write, a row handed to the writer is part
    of what the file will hold. *)
Lemma writerow_written filename fields s :
  (forall t, write_raises E filename t = false) ->
  exists s',
    writerow E filename fields s = (Ok tt, s')
    /\ written filename s' = written filename s +:+ csv_line fields
    /\ trace s' = trace s.
Proof.
  intros Hwrite. rewrite writerow_run. cbn zeta.
  assert (Hkept : written filename
                    (later 1 (buffered (pending s +:+ csv_line fields) s)) =
                  written filename s +:+ csv_line fields).
  { unfold written, content_of. cbn [files pending later buffered].
    now rewrite append_assoc. }
  destruct (spills E filename (clock s));
    [|eexists; split; [reflexivity|]; split; [exact Hkept|reflexivity]].
  rewrite flush_run, Hwrite.
  destruct (String.eqb _ EmptyString);
    [eexists; split; [reflexivity|]; split; [exact Hkept|reflexivity]|].
  eexists. split; [reflexivity|]. split; [|reflexivity].
  rewrite <- Hkept.
  unfold written at 1, content_of. cbn [files pending with_file later buffered].
  rewrite lookup_insert_eq. cbn [default]. now rewrite append_nil_r.
Qed.

(** With a file that takes every write, the loop hands one row per record
    to the writer, in order, whatever happens to the images, up to the
    record whose fetch raises, if any. *)
Lemma save_items_loop_run items filename s :
  (forall t, write_raises E filename t = false) ->
  Forall (fun it => image_filename E (image it) <> filename) items ->
  exists r s' n,
    save_items_loop E items filename s = (r, s')
    /\ written filename s' =
       written filename s +:+ csv_text (rows_of E (take n items))
    /\ (r = Ok tt -> n = length items)
    /\ (Forall (fun it => only_transport_errors E (image it) None) items ->
        r = Ok tt)
    /\ grows s s'.
Proof.
  intros Hwrite Hpaths. revert s.
  induction Hpaths as [|it rest Hpath _ IH]; intros s.
  - exists (Ok tt), s, 0%nat. cbn. rewrite append_nil_r.
    repeat split; auto. exists []. now rewrite app_nil_r.
  - cbn [save_items_loop].
    destruct (save_image_state E (image it) (image_filename E (image it)) s)
      as (r1 & s1 & Himg & Htouch & Hend).
    pose proof (written_untouched filename _ s s1 Hpath Htouch) as Hsame.
    destruct Htouch as (_ & _ & _ & evs1 & Ht1).
    destruct r1 as [[]|e].
    + run Himg.
      destruct (writerow_written filename (row_of E (saved E it)) s1 Hwrite)
        as (s2 & Hrow & Hwritten2 & Ht2).
      run Hrow.
      destruct (IH s2) as (r & s' & n & Hloop & Hwritten & Hall & Hok & evs & Ht).
      exists r, s', (S n). split; [exact Hloop|].
      split; [|split; [|split]].
      * rewrite Hwritten, Hwritten2, Hsame. cbn [take rows_of map csv_text].
        now rewrite append_assoc.
      * intros Hr. cbn [length]. now rewrite (Hall Hr).
      * intros Honly. apply Hok. now inversion Honly.
      * exists (evs1 ++ evs). now rewrite Ht, Ht2, Ht1, app_assoc.
    + rewrite (bind_exc _ _ _ _ _ Himg).
      exists (Exc e), s1, 0%nat. split; [reflexivity|].
      split; [|split; [|split]].
      * cbn. now rewrite append_nil_r.
      * discriminate.
      * intros Honly. inversion Honly as [|? ? Hit _]; subst.
        destruct (save_image_run E (image it) (image_filename E (image it)) s Hit)
          as (s'' & Hrun & _).
        rewrite Himg in Hrun. discriminate Hrun.
      * now exists evs1.
Qed.

(** The [with] block, when the file takes the write of the close: what
    was handed to the writer is in the file. *)
Lemma closing_run filename body s r s' :
  body (buffered EmptyString s) = (r, s') ->
  write_raises E filename (clock s') = false ->
  is_Some (files s' !! filename) ->
  exists s'',
    closing E filename body s = (r, s'')
    /\ files s'' !! filename = Some (written filename s')
    /\ trace s'' = trace s'.
Proof.
  intros Hbody Hwrite [c Hc]. unfold closing. run set_pending_run.
  erewrite bind_ok by (apply attempt_run, Hbody).
  pose proof (flush_run E filename s') as Hflush. rewrite Hwrite in Hflush.
  destruct (String.eqb_spec (pending s') EmptyString) as [Hnone|_].
  - run Hflush. exists s'. split; [reflexivity|]. split; [|reflexivity].
    unfold written, content_of. rewrite Hc, Hnone. cbn [default].
    now rewrite append_nil_r.
  - run Hflush. eexists. split; [reflexivity|]. split; [|reflexivity].
    cbn [files with_file]. apply lookup_insert_eq.
Qed.

Lemma save_items_run items filename first_page s :
  open_raises E filename (open_mode first_page) (clock s) = false ->
  (forall t, write_raises E filename t = false) ->
  Forall (fun it => image_filename E (image it) <> filename) items ->
  exists s' n evs,
    save_items E items filename first_page s = (Ok tt, s')
    /\ files s' !! filename =
       Some (start_text first_page filename s
             +:+ csv_text (rows_of E (take n items)))
    /\ trace s' = trace s ++ EvOpen filename (open_mode first_page) :: evs
    /\ (Forall (fun it => only_transport_errors E (image it) None) items ->
        n = length items).
Proof.
  intros Hopen Hwrite Hpaths. unfold save_items.
  pose proof (open_run E filename (open_mode first_page) s) as Ho.
  rewrite Hopen in Ho. fold (open_mode first_page).
  set (s1 := with_file filename
       match open_mode first_page with
       | ModeA => content_of filename s
       | _ => EmptyString
       end (later 1 (log [EvOpen filename (open_mode first_page)] s))) in Ho.
  assert (Hhead : exists s2,
    (if first_page then writerow E filename titles else ret tt)
      (buffered EmptyString s1) = (Ok tt, s2)
    /\ written filename s2 = start_text first_page filename s
    /\ trace s2 = trace s ++ [EvOpen filename (open_mode first_page)]).
  { destruct first_page.
    - destruct (writerow_written filename titles (buffered EmptyString s1) Hwrite)
        as (s2 & Hrow & Hwritten & Htrace).
      exists s2. split; [exact Hrow|]. split; [|now rewrite Htrace].
      rewrite Hwritten. unfold s1, written, start_text, content_of.
      cbn [files pending buffered with_file later log open_mode].
      rewrite lookup_insert_eq. reflexivity.
    - exists (buffered EmptyString s1). split; [reflexivity|].
      split; [|reflexivity].
      unfold s1, written, start_text, content_of.
      cbn [files pending buffered with_file later log open_mode].
      rewrite lookup_insert_eq. cbn [default]. now rewrite append_nil_r. }
  destruct Hhead as (s2 & Hrow & Hwritten2 & Ht2).
  destruct (save_items_loop_run items filename s2 Hwrite Hpaths)
    as (r & s3 & n & Hloop & Hwritten & Hall & Hok & evs & Ht).
  assert (Hbody :
    ((if first_page then writerow E filename titles else ret tt) ;;;
     save_items_loop E items filename) (buffered EmptyString s1) = (r, s3)).
  { now run Hrow. }
  assert (Hthere : is_Some (files s3 !! filename)).
  { pose proof (header_and_rows_keep E filename filename first_page items
                  (buffered EmptyString s1)) as Hkeeps.
    rewrite Hbody in Hkeeps. apply Hkeeps. unfold s1.
    cbn [files buffered with_file]. rewrite lookup_insert_eq. eauto. }
  destruct (closing_run filename _ s1 r s3 Hbody (Hwrite _) Hthere)
    as (s4 & Hclose & Hfile4 & Ht4).
  assert (Hfile : files s4 !! filename =
                  Some (start_text first_page filename s
                        +:+ csv_text (rows_of E (take n items)))).
  { now rewrite Hfile4, Hwritten, Hwritten2. }
  assert (Htrace : trace s4 =
                   trace s ++ EvOpen filename (open_mode first_page) :: evs).
  { now rewrite Ht4, Ht, Ht2, <- app_assoc. }
  assert (Hn : Forall (fun it => only_transport_errors E (image it) None) items ->
               n = length items).
  { intros Honly. apply Hall, Hok, Honly. }
  destruct r as [[]|e].
  - exists s4, n, evs.
    erewrite bind_ok
      by (apply attempt_run; erewrite bind_ok by exact Ho; exact Hclose).
    now repeat split.
  - erewrite bind_ok
      by (apply attempt_run; erewrite bind_ok by exact Ho; exact Hclose).
    cbv beta iota.
    destruct e; rewrite print_run; eexists _, n, _;
      (split; [reflexivity|]); (split; [exact Hfile|]);
      (split; [|exact Hn]); cbn [trace log]; rewrite Htrace;
      rewrite <- app_assoc; reflexivity.
Qed.

(** When the open raises, the call reports it and does nothing else. *)
Lemma save_items_open_raises items filename first_page s :
  open_raises E filename (open_mode first_page) (clock s) = true ->
  save_items E items filename first_page s =
  (Ok tt,
   later 1 (log [EvOpen filename (open_mode first_page); EvPrint MsgCsvDisk] s)).
Proof.
  intros Hopen. unfold save_items.
  pose proof (open_run E filename (open_mode first_page) s) as Ho.
  rewrite Hopen in Ho. fold (open_mode first_page).
  erewrite bind_ok by (apply attempt_run, (bind_exc _ _ _ _ _ Ho)).
  cbv beta iota. rewrite print_run. now tidy.
Qed.

End Rows.

(** ** The trace only grows *)

#[local] Instance grows_preorder : PreOrder grows.
Proof.
  split.
  - intros s. exists []. now rewrite app_nil_r.
  - intros s1 s2 s3 (evs1 & H1) (evs2 & H2).
    exists (evs1 ++ evs2). now rewrite H2, H1, app_assoc.
Qed.

Lemma grows_same_trace s s' : trace s' = trace s -> grows s s'.
Proof. intros H. exists []. now rewrite app_nil_r. Qed.

Section Grows.

Variable E : env.

Lemma print_grows m : respects grows (print m).
Proof. intros s. now exists [EvPrint m]. Qed.

Lemma tick_grows : respects grows tick.
Proof. intros s. now apply grows_same_trace. Qed.

Lemma get_pending_grows : respects grows get_pending.
Proof. intros s. reflexivity. Qed.

Lemma set_pending_grows data : respects grows (set_pending data).
Proof. intros s. now apply grows_same_trace. Qed.

Lemma open_grows path m : respects grows (open_ E path m).
Proof.
  intros s. rewrite open_run.
  destruct (open_raises E path m (clock s)); now exists [EvOpen path m].
Qed.

Lemma write_grows path data : respects grows (write_ E path data).
Proof.
  intros s. rewrite write_run.
  destruct (write_raises E path (clock s)); now apply grows_same_trace.
Qed.

Lemma get_response_grows u params : respects grows (get_response E u params).
Proof.
  intros s.
  destruct (get_response_loop_state E MAX_RETRIES u params s)
    as (r & k & evs & Hrun & _).
  unfold get_response. rewrite Hrun. now exists evs.
Qed.

Hint Resolve print_grows tick_grows get_pending_grows set_pending_grows
  open_grows write_grows get_response_grows : respects.

Lemma flush_grows path : respects grows (flush_ E path).
Proof. unfold flush_. respect. Qed.

Hint Resolve flush_grows : respects.

Lemma writerow_grows path fields : respects grows (writerow E path fields).
Proof. unfold writerow. respect. Qed.

Lemma save_image_grows u filename : respects grows (save_image E u filename).
Proof. unfold save_image. respect. Qed.

Hint Resolve writerow_grows save_image_grows : respects.

Lemma save_items_loop_grows items filename :
  respects grows (save_items_loop E items filename).
Proof. induction items as [|it rest IH]; cbn [save_items_loop]; respect. Qed.

Hint Resolve save_items_loop_grows : respects.

(** In every world the first thing [save_items] does is to ask for the
    file in the mode [first_page] selects. *)
Lemma save_items_opens items filename first_page s :
  exists evs,
    trace (snd (save_items E items filename first_page s)) =
    trace s ++ EvOpen filename (open_mode first_page) :: evs.
Proof.
  unfold save_items. fold (open_mode first_page).
  set (body := closing E filename _).
  assert (Hbody : respects grows body) by (unfold body, closing; respect).
  pose proof (open_run E filename (open_mode first_page) s) as Ho.
  destruct (open_raises E filename (open_mode first_page) (clock s)).
  - erewrite bind_ok by (apply attempt_run, (bind_exc _ _ _ _ _ Ho)).
    cbv beta iota. rewrite print_run. eexists. cbn.
    rewrite <- app_assoc. reflexivity.
  - match type of Ho with _ = (_, ?s1) =>
      destruct (body s1) as [r s2] eqn:Hrun;
      destruct (Hbody s1) as (evs & Ht)
    end.
    rewrite Hrun in Ht. cbn [snd] in Ht.
    erewrite bind_ok
      by (apply attempt_run; erewrite bind_ok by exact Ho; exact Hrun).
    destruct r as [[]|e]; [|destruct e]; cbv beta iota;
      rewrite ?print_run; eexists; cbn [snd trace log ret];
      rewrite Ht; cbn [trace with_file later log];
      rewrite <- ?app_assoc; reflexivity.
Qed.

End Grows.

(** ** The page loop *)

Section Loop.

Variable E : env.

Lemma mkdir_run path s :
  exists s', (mkdir E path s = (Ok tt, s') \/ mkdir E path s = (Exc OSError, s'))
             /\ files s' = files s.
Proof.
  unfold mkdir. run tick_run.
  destruct (mkdir_raises E path (clock s)); eexists; split; eauto.
Qed.

Lemma ensure_image_dir_run s :
  exists r s', ensure_image_dir E s = (r, s') /\ files s' = files s.
Proof.
  unfold ensure_image_dir. erewrite bind_ok by reflexivity.
  destruct (bool_decide (IMAGE_DIR ∈ dirs s)
            || bool_decide (is_Some (files s !! IMAGE_DIR))).
  - now exists (Ok true), s.
  - destruct (mkdir_run IMAGE_DIR s) as (s' & [Hmk|Hmk] & Hfiles).
    + erewrite bind_ok by (apply attempt_run, Hmk). now eexists _, _.
    + erewrite bind_ok by (apply attempt_run, Hmk). cbv beta iota.
      run print_run. now eexists _, _.
Qed.

Lemma fetch_page_run page page_count json s :
  exists r k evs,
    fetch_page E page page_count json s = (r, later k (log evs s))
    /\ (r = Ok None -> last (trace s ++ evs) = Some (EvPrint MsgFatal)).
Proof.
  unfold fetch_page. destruct (0 <? page)%nat.
  - run print_run.
    destruct (get_json_run E page
                (log [EvPrint (MsgPage (page + 1) page_count)] s))
      as ([json'|e] & k & evs & Hrun).
    + run Hrun. destruct (negb (truthy json')).
      * run print_run. tidy. eexists _, _, _. split; [reflexivity|].
        intros _. rewrite app_comm_cons, app_assoc. apply last_snoc.
      * tidy. eexists _, _, _. split; [reflexivity|]. discriminate.
    + erewrite bind_exc by exact Hrun. tidy.
      eexists _, _, _. split; [reflexivity|]. discriminate.
  - exists (Ok (Some json)), 0%nat, []. tidy. split; [reflexivity|].
    discriminate.
Qed.

Lemma fetch_page_fails n page_count json s :
  (0 < n)%nat -> page_fails E n ->
  exists k evs,
    fetch_page E n page_count json s = (Ok None, later k (log evs s))
    /\ last (trace s ++ evs) = Some (EvPrint MsgFatal).
Proof.
  intros Hn Hfail. unfold fetch_page.
  destruct (Nat.ltb_spec 0 n) as [_|]; [|lia].
  run print_run.
  destruct (get_json_run E n (log [EvPrint (MsgPage (n + 1) page_count)] s))
    as (r & k & evs & Hrun).
  pose proof (Hfail (log [EvPrint (MsgPage (n + 1) page_count)] s)) as Hr.
  rewrite Hrun in Hr. cbn [fst] in Hr. subst r.
  run Hrun. cbn [truthy PyFalse negb]. run print_run. tidy.
  eexists _, _. split; [reflexivity|].
  rewrite app_comm_cons, app_assoc. apply last_snoc.
Qed.

Lemma fetch_page_succeeds p page_count json json' s :
  (0 < p)%nat -> fst (get_json E p
                        (log [EvPrint (MsgPage (p + 1) page_count)] s))
                 = Ok json' ->
  truthy json' = true ->
  exists k evs,
    fetch_page E p page_count json s = (Ok (Some json'), later k (log evs s)).
Proof.
  intros Hp Hget Htrue. unfold fetch_page.
  destruct (Nat.ltb_spec 0 p) as [_|]; [|lia].
  run print_run.
  destruct (get_json_run E p (log [EvPrint (MsgPage (p + 1) page_count)] s))
    as (r & k & evs & Hrun).
  rewrite Hrun in Hget. cbn [fst] in Hget. subst r.
  run Hrun. rewrite Htrue. cbn [negb]. tidy. now eexists _, _.
Qed.

(** The files left by a loop that meets a page it cannot fetch are those
    left by the loop over the pages before it; the run ends on the fatal
    message unless an exception ended it earlier. *)
Lemma scrape_loop_cut pages n rest page_count json s :
  (0 < n)%nat -> page_fails E n ->
  let run := scrape_loop E (pages ++ n :: rest) page_count json s in
  files (snd run) = files (snd (scrape_loop E pages page_count json s))
  /\ ((exists e, fst run = Exc e)
      \/ (fst run = Ok tt
          /\ last (trace (snd run)) = Some (EvPrint MsgFatal))).
Proof.
  intros Hn Hfail. revert json s.
  induction pages as [|p pages IH]; intros json s; cbn zeta.
  - cbn [app scrape_loop].
    destruct (fetch_page_fails n page_count json s Hn Hfail)
      as (k & evs & Hrun & Hlast).
    run Hrun. cbn. auto.
  - cbn [app scrape_loop].
    destruct (fetch_page_run p page_count json s)
      as (r & k & evs & Hrun & Hnone).
    destruct r as [[json'|]|e].
    + rewrite !(bind_ok _ _ _ _ _ Hrun).
      destruct (extract_and_write E p json' (later k (log evs s)))
        as [[[]|e] s2] eqn:Hwrite.
      * rewrite !(bind_ok _ _ _ _ _ Hwrite). apply IH.
      * rewrite !(bind_exc _ _ _ _ _ Hwrite). cbn. eauto.
    + rewrite !(bind_ok _ _ _ _ _ Hrun). cbn. auto.
    + rewrite !(bind_exc _ _ _ _ _ Hrun). cbn. eauto.
Qed.

End Loop.

(** ** A run that meets no obstacle *)

Section Rows_of_a_run.

Variable E : env.
Variable payload : nat -> pyval.
Variable entries : nat -> list pyval.

Hypothesis output_opens :
  forall m t, open_raises E DEFAULT_FILENAME m t = false.
Hypothesis output_writes :
  forall t, write_raises E DEFAULT_FILENAME t = false.
Hypothesis images_answered :
  forall u, only_transport_errors E u None.

Lemma rows_of_app items1 items2 :
  rows_of E (items1 ++ items2) = rows_of E items1 ++ rows_of E items2.
Proof. apply map_app. Qed.

Lemma extract_and_write_run p json s :
  results_field json = Ok (entries p) ->
  exists s',
    extract_and_write E p json s = (Ok tt, s')
    /\ files s' !! DEFAULT_FILENAME =
       Some (start_text (p =? 0)%nat DEFAULT_FILENAME s
             +:+ csv_text (rows_of E (extract E (entries p)))).
Proof using output_opens output_writes images_answered.
  intros Hres. unfold extract_and_write. run print_run.
  erewrite bind_ok by (apply get_items_run, Hres). tidy.
  destruct (save_items_run E (extract E (entries p)) DEFAULT_FILENAME
              (p =? 0)%nat
              (log (EvPrint (MsgImages (p + 1)) :: skipped E (entries p)) s))
    as (s' & n & evs & Hrun & Hfile & _ & Hn).
  - apply output_opens.
  - apply output_writes.
  - apply Forall_forall. intros it _. apply image_filename_not_output.
  - exists s'. split; [exact Hrun|].
    rewrite Hn in Hfile by (apply Forall_forall; intros it _; apply images_answered).
    now rewrite firstn_all in Hfile.
Qed.

Lemma scrape_loop_rows n : forall k page_count json s c,
  (0 < k)%nat ->
  (forall p s, (k <= p < k + n)%nat -> fst (get_json E p s) = Ok (payload p)) ->
  (forall p, (k <= p < k + n)%nat -> truthy (payload p) = true) ->
  (forall p, (k <= p < k + n)%nat ->
             results_field (payload p) = Ok (entries p)) ->
  files s !! DEFAULT_FILENAME = Some c ->
  exists s',
    scrape_loop E (seq k n) page_count json s = (Ok tt, s')
    /\ files s' !! DEFAULT_FILENAME =
       Some (c +:+ csv_text (rows_of E (all_items E entries (seq k n)))).
Proof using output_opens output_writes images_answered.
  induction n as [|n IH]; intros k page_count json s c Hk Hget Htrue Hres Hc.
  - exists (log [EvPrint MsgDone] s). cbn. now rewrite append_nil_r.
  - cbn [seq scrape_loop].
    destruct (fetch_page_succeeds E k page_count json (payload k) s Hk)
      as (j & evs & Hfetch); [apply Hget; lia|apply Htrue; lia|].
    run Hfetch.
    destruct (extract_and_write_run k (payload k) (later j (log evs s)))
      as (s1 & Hwrite & Hfile1); [apply Hres; lia|].
    run Hwrite.
    destruct (Nat.eqb_spec k 0) as [|_]; [lia|].
    unfold start_text, content_of in Hfile1. cbn [files later log] in Hfile1.
    rewrite Hc in Hfile1. cbn [default] in Hfile1.
    destruct (IH (S k) page_count (payload k) s1 _ ltac:(lia)
                ltac:(intros; apply Hget; lia)
                ltac:(intros; apply Htrue; lia)
                ltac:(intros; apply Hres; lia) Hfile1)
      as (s' & Hloop & Hfile).
    exists s'. split; [exact Hloop|].
    rewrite Hfile. unfold all_items. cbn [map concat].
    now rewrite rows_of_app, csv_text_app, append_assoc.
Qed.

End Rows_of_a_run.

(** * The claims *)

(** C1, amended: in a run that gets past the image directory, where pages
    0..N-1 (N >= 1, the page count read from page 0) are all fetched
    successfully, every page carries a list of entries, every open of and
    write to the output file succeeds, and every request for an image is
    answered or fails with a transport error, the output file holds one
    header row followed by one row per extracted item, page after page and
    in the order of each page's list. *)
Theorem scrape_writes_every_row E payload entries N s0 :
  (0 < N)%nat ->
  fst (ensure_image_dir E s0) = Ok true ->
  (forall p s, (p < N)%nat -> fst (get_json E p s) = Ok (payload p)) ->
  (forall p, (p < N)%nat -> truthy (payload p) = true) ->
  page_count_field (payload 0%nat) = Ok (JInt (Z.of_nat N)) ->
  (forall p, (p < N)%nat -> results_field (payload p) = Ok (entries p)) ->
  (forall m t, open_raises E DEFAULT_FILENAME m t = false) ->
  (forall t, write_raises E DEFAULT_FILENAME t = false) ->
  (forall u, only_transport_errors E u None) ->
  fst (scrape E s0) = Ok tt
  /\ files (snd (scrape E s0)) !! DEFAULT_FILENAME =
     Some (csv_text (titles :: rows_of E (all_items E entries (seq 0 N)))).
Proof.
  intros HN Hdir Hget Htrue Hcount Hres Hopen Hwrite Himages.
  unfold scrape.
  destruct (ensure_image_dir E s0) as [r s1] eqn:Hready.
  cbn [fst] in Hdir. subst r. run Hready. cbn [negb]. run print_run.
  destruct (get_json_run E 0 (log [EvPrint MsgFirstPage] s1))
    as (r & k & evs & Hjson).
  pose proof (Hget 0%nat (log [EvPrint MsgFirstPage] s1) HN) as Hr.
  rewrite Hjson in Hr. cbn [fst] in Hr. subst r.
  run Hjson. rewrite (Htrue 0%nat HN). cbn [negb].
  run get_page_count_run. unfold page_count_of. rewrite Hcount.
  assert (Hnz : truthy (JInt (Z.of_nat N)) = true).
  { cbn. destruct (Z.eqb_spec (Z.of_nat N) 0); [lia|reflexivity]. }
  rewrite Hnz. cbn [negb].
  erewrite bind_ok by reflexivity. rewrite Nat2Z.id.
  destruct N as [|n]; [lia|]. cbn [seq scrape_loop].
  erewrite bind_ok by reflexivity.
  destruct (extract_and_write_run E entries Hopen Hwrite Himages 0
              (payload 0%nat)
              (log [] (later k (log evs (log [EvPrint MsgFirstPage] s1)))))
    as (s2 & Hfirst & Hfile2); [apply Hres; lia|].
  run Hfirst. cbn [Nat.eqb start_text] in Hfile2.
  destruct (scrape_loop_rows E payload entries Hopen Hwrite Himages n 1
              (JInt (Z.of_nat (S n))) (payload 0%nat) s2 _ ltac:(lia)
              ltac:(intros; apply Hget; lia)
              ltac:(intros; apply Htrue; lia)
              ltac:(intros; apply Hres; lia) Hfile2)
    as (s' & Hloop & Hfile).
  rewrite Hloop. split; [reflexivity|].
  cbn [fst snd]. rewrite Hfile. unfold all_items. cbn [map concat csv_text].
  now rewrite rows_of_app, csv_text_app, append_assoc.
Qed.

(** C2: where every attempt is answered or raises a transport error, every
    request made by [get_response] is immediately followed by the delay of
    [SLEEP_TIME], whether it failed or not; and when every request raises
    a transport error, [get_response] returns its failure value after
    exactly [MAX_RETRIES] requests. *)
Theorem get_response_gives_up_after_max_retries E u params s :
  only_transport_errors E u params ->
  (exists r k evs,
     get_response E u params s = (Ok r, later k (log evs s))
     /\ throttled evs = true /\ requests evs = k /\ (k <= MAX_RETRIES)%nat)
  /\ ((forall t, requests_get E u params t = None) ->
      get_response E u params s =
      (Ok None,
       later MAX_RETRIES
         (log (concat (replicate MAX_RETRIES
                         [EvGet u params; EvSleep SLEEP_TIME])
               ++ [EvPrint (MsgRequest u)]) s))).
Proof.
  intros Honly. split.
  - destruct (get_response_loop_run E MAX_RETRIES u params s Honly)
      as (r & k & evs & Hrun & Hthr & Hk & Hle).
    now exists r, k, evs.
  - now apply get_response_loop_raising.
Qed.

(** C3: a payload that was fetched successfully but has no list of results
    makes [get_items] raise [KeyError] instead of returning a list. *)
Theorem get_items_raises_without_results E s :
  get_items E
    (JObj [("success", JBool true);
           ("data", JObj [("pagination",
                           JObj [("numberOfPages", JInt 1)])])]) s
  = (Exc KeyError, s).
Proof. reflexivity. Qed.

(** C4: when page [n] (0 < n < N) cannot be fetched, the loop over pages
    0..N-1 leaves the files, and so the rows of the output file, exactly as
    the loop over pages 0..n-1 alone leaves them, and it ends on the fatal
    message (or on an exception raised before page [n]), never on the report
    of completion. *)
Theorem scrape_loop_halts_at_failed_page E N n page_count json s :
  (0 < n < N)%nat ->
  page_fails E n ->
  let run := scrape_loop E (seq 0 N) page_count json s in
  files (snd run) = files (snd (scrape_loop E (seq 0 n) page_count json s))
  /\ ((exists e, fst run = Exc e)
      \/ (fst run = Ok tt
          /\ last (trace (snd run)) = Some (EvPrint MsgFatal))).
Proof.
  intros Hn Hfail.
  replace N with (n + S (N - n - 1))%nat by lia.
  rewrite seq_app. cbn [seq Nat.add].
  apply scrape_loop_cut; [lia|exact Hfail].
Qed.

(** C7: when the first page is fetched and its page count is zero, absent
    or falsy in any other way, [scrape] prints the fatal message and stops:
    after the first page's fetch it makes no call to the outside world and
    the files are those it started from. *)
Theorem scrape_fatal_on_falsy_page_count E s0 s1 json s2 :
  ensure_image_dir E s0 = (Ok true, s1) ->
  get_json E 0 (log [EvPrint MsgFirstPage] s1) = (Ok json, s2) ->
  truthy json = true ->
  truthy (page_count_of json) = false ->
  scrape E s0 =
  (Ok tt,
   log (match page_count_field json with
        | Ok _ => []
        | Exc e => [EvPrint (MsgPageCount e)]
        end ++ [EvPrint MsgFatal]) s2)
  /\ files s2 = files s0.
Proof.
  intros Hready Hjson Htrue Hcount. split.
  - unfold scrape. run Hready. cbn [negb]. run print_run. run Hjson.
    rewrite Htrue. cbn [negb]. run get_page_count_run.
    rewrite Hcount. cbn [negb]. rewrite print_run. now tidy.
  - destruct (ensure_image_dir_run E s0) as (r & s' & Hrun & Hfiles).
    rewrite Hready in Hrun. injection Hrun as _ <-.
    pose proof (get_json_files E 0 (log [EvPrint MsgFirstPage] s1)) as H.
    rewrite Hjson in H. cbn in H. now rewrite H, Hfiles.
Qed.

(** C9: collapsing whitespace runs is idempotent. *)
Theorem re_sub_spaces_idempotent (s : string) :
  re_sub_spaces (re_sub_spaces s) = re_sub_spaces s.
Proof. unfold re_sub_spaces. apply (proj1 (sub_spaces_fixed s)). Qed.

(** C5, amended: in every world the first thing [save_items] does is to
    ask for the output file in the mode [first_page] selects: overwrite
    when it is true, append when it is false.  Provided that open and the
    writes of the output file do not raise, the file then holds, with
    [first_page] true, the header row
    [Item name;URL;Description;Price;Image] followed by rows of the batch
    and nothing of its old content; with [first_page] false, its old
    content followed by rows of the batch, without a header.  The rows are
    those of all the records when every request for an image is answered or
    fails with a transport error, and those of the first records
    otherwise. *)
Theorem save_items_mode_and_header E items first_page s :
  let run := save_items E items DEFAULT_FILENAME first_page s in
  fst run = Ok tt
  /\ (exists evs,
        trace (snd run) =
        trace s
        ++ EvOpen DEFAULT_FILENAME (if first_page then ModeW else ModeA) :: evs)
  /\ (open_raises E DEFAULT_FILENAME (if first_page then ModeW else ModeA)
        (clock s) = false ->
      (forall t, write_raises E DEFAULT_FILENAME t = false) ->
      exists n,
        files (snd run) !! DEFAULT_FILENAME =
        Some ((if first_page
               then "Item name;URL;Description;Price;Image" +:+ CRLF
               else content_of DEFAULT_FILENAME s)
              +:+ csv_text (map (cells E) (take n items)))
        /\ ((forall u, only_transport_errors E u None) -> n = length items)).
Proof.
  cbn zeta. split; [|split].
  - unfold save_items.
    match goal with
    | |- fst (bind (attempt ?body) _ s) = _ =>
        destruct (body s) as [[[]|e] s'] eqn:Hbody;
        erewrite bind_ok by (apply attempt_run, Hbody)
    end.
    + reflexivity.
    + now destruct e.
  - destruct (save_items_opens E items DEFAULT_FILENAME first_page s)
      as (evs & Htrace).
    exists evs. rewrite Htrace. now destruct first_page.
  - intros Hopen Hwrite.
    destruct (save_items_run E items DEFAULT_FILENAME first_page s)
      as (s' & n & evs & Hrun & Hfile & _ & Hn).
    + now destruct first_page.
    + exact Hwrite.
    + apply Forall_forall. intros it _. apply image_filename_not_output.
    + exists n. rewrite Hrun. cbn [snd]. split.
      * rewrite Hfile. now destruct first_page.
      * intros Himages. apply Hn, Forall_forall. intros it _. apply Himages.
Qed.






(** C10, amended: when the fetch fails (it returns the failure value) and
    the open of the destination path in binary write mode does not raise,
    [save_image] has opened the path before it meets the failure ([False]
    has no [content]); it leaves an empty file there, whatever was at that
    path before, changes no other file, and returns normally.  When the
    open raises, the call returns normally as well and leaves every file,
    the one at the destination path included, as it was. *)
Theorem save_image_empties_the_file_on_failed_fetch E u filename s :
  fst (get_response E u None s) = Ok None ->
  let fetched := snd (get_response E u None s) in
  let saved_state := snd (save_image E u filename s) in
  fst (save_image E u filename s) = Ok tt
  /\ (open_raises E filename ModeWB (clock fetched) = false ->
      files saved_state = <[filename := EmptyString]> (files s)
      /\ trace saved_state =
         trace fetched
         ++ [EvOpen filename ModeWB; EvPrint (MsgImage AttributeError)])
  /\ (open_raises E filename ModeWB (clock fetched) = true ->
      files saved_state = files s
      /\ trace saved_state =
         trace fetched ++ [EvOpen filename ModeWB; EvPrint MsgImageDisk]).
Proof.
  intros Hfail. cbn zeta.
  destruct (get_response_loop_state E MAX_RETRIES u None s)
    as (r & k & evs & Hrun & _).
  fold (get_response E u None s) in Hrun.
  rewrite Hrun in Hfail |- *. cbn [fst snd] in Hfail |- *. subst r.
  rewrite (save_image_after E u filename s None _ Hrun). cbn [fst snd].
  split; [reflexivity|]. unfold image_outcome.
  split; intros Hopen; rewrite Hopen; cbn; (split; [reflexivity|]);
    now rewrite <- !app_assoc.
Qed.

(** ** Sample runs *)

Lemma get_json_good E p r json success s :
  (forall t, requests_get E JSON_URL (Some p) t = Some r) ->
  status_code r = HTTP_OK ->
  json_body r = Some json ->
  dict_get json "success" PyFalse = Ok success ->
  truthy success = true ->
  get_json E p s =
  (Ok json, later 1 (log [EvGet JSON_URL (Some p); EvSleep SLEEP_TIME] s)).
Proof.
  intros Hget Hstatus Hbody Hflag Htrue.
  unfold get_json, get_response, MAX_RETRIES. cbn [get_response_loop].
  erewrite bind_ok.
  2:{ erewrite bind_ok by (apply attempt_run, http_get_run).
      rewrite Hget. run sleep_run. rewrite Hstatus. reflexivity. }
  cbv beta iota. rewrite Hbody. unfold lift at 1. rewrite Hflag.
  erewrite bind_ok by reflexivity. rewrite Htrue. now tidy.
Qed.

Lemma page_fails_on_status E n r :
  (forall t, requests_get E JSON_URL (Some n) t = Some r) ->
  (status_code r =? HTTP_OK) = false ->
  page_fails E n.
Proof.
  intros Hget Hstatus s.
  unfold get_json, get_response, MAX_RETRIES. cbn [get_response_loop].
  erewrite bind_ok.
  2:{ erewrite bind_ok by (apply attempt_run, http_get_run).
      rewrite Hget. run sleep_run. rewrite Hstatus. cbn [negb].
      run print_run. reflexivity. }
  reflexivity.
Qed.

Lemma shop_serves E p s :
  (forall t, requests_get E JSON_URL (Some p) t
             = Some (page_response (shop_payload p))) ->
  fst (get_json E p s) = Ok (shop_payload p).
Proof.
  intros Hget.
  now rewrite (get_json_good E p _ (shop_payload p) (JBool true) s Hget).
Qed.

(** The run of C1's statement in the sample shop: the header, the two
    rows of page 0 and the row of page 1. *)
Lemma scrape_writes_every_row_witness :
  fst (scrape shop fresh) = Ok tt
  /\ files (snd (scrape shop fresh)) !! DEFAULT_FILENAME =
     Some (header_line +:+ boots_line +:+ sandals_line +:+ trainers_line).
Proof.
  apply (scrape_writes_every_row shop shop_payload shop_entries 2 fresh).
  - lia.
  - reflexivity.
  - intros p s _. apply shop_serves. reflexivity.
  - reflexivity.
  - reflexivity.
  - reflexivity.
  - reflexivity.
  - reflexivity.
  - intros u t _. reflexivity.
Defined.

(** C1 as stated fails where the output file cannot be opened: both pages
    are fetched, three items are extracted, the run reports completion, and
    there is no output file. *)
Lemma output_file_absent_when_it_cannot_be_opened :
  (forall p s, fst (get_json shop_readonly p s) = Ok (shop_payload p))
  /\ page_count_of (shop_payload 0) = JInt 2
  /\ length (all_items shop_readonly shop_entries (seq 0 2)) = 3%nat
  /\ fst (scrape shop_readonly fresh) = Ok tt
  /\ last (trace (snd (scrape shop_readonly fresh))) = Some (EvPrint MsgDone)
  /\ files (snd (scrape shop_readonly fresh)) !! DEFAULT_FILENAME = None.
Proof.
  split; [intros p s; apply shop_serves; reflexivity|].
  repeat split; vm_compute; reflexivity.
Qed.

(** The missing list of results ends the whole run: nothing is written. *)
Lemma scrape_crashes_without_results :
  fst (scrape broken_shop fresh) = Exc KeyError
  /\ files (snd (scrape broken_shop fresh)) !! DEFAULT_FILENAME = None.
Proof. split; vm_compute; reflexivity. Qed.

Lemma get_response_gives_up_after_max_retries_witness :
  get_response offline boots_url None fresh =
  (Ok None,
   later 3
     (log [EvGet boots_url None; EvSleep 1; EvGet boots_url None; EvSleep 1;
           EvGet boots_url None; EvSleep 1; EvPrint (MsgRequest boots_url)]
        fresh)).
Proof.
  apply (proj2 (get_response_gives_up_after_max_retries
                  offline boots_url None fresh (fun t _ => eq_refl))).
  intros t. reflexivity.
Defined.

Lemma scrape_loop_halts_at_failed_page_witness :
  let run := scrape_loop shop_page2_down (seq 0 5) (JInt 5)
               (listing 5 [boots]) fresh in
  files (snd run)
  = files (snd (scrape_loop shop_page2_down (seq 0 2) (JInt 5)
                  (listing 5 [boots]) fresh))
  /\ ((exists e, fst run = Exc e)
      \/ (fst run = Ok tt
          /\ last (trace (snd run)) = Some (EvPrint MsgFatal))).
Proof.
  apply (scrape_loop_halts_at_failed_page shop_page2_down 5 2).
  - lia.
  - apply (page_fails_on_status shop_page2_down 2 server_error).
    + intros t. reflexivity.
    + reflexivity.
Defined.

(** C5 as stated fails where the open raises: the old content is still
    there and no header has been written. *)
Lemma old_rows_survive_when_open_raises :
  save_items shop_readonly [boots_item] DEFAULT_FILENAME true earlier_run =
  (Ok tt,
   later 1 (log [EvOpen DEFAULT_FILENAME ModeW; EvPrint MsgCsvDisk] earlier_run))
  /\ files (snd (save_items shop_readonly [boots_item] DEFAULT_FILENAME true
                   earlier_run)) !! DEFAULT_FILENAME = Some "old rows".
Proof. split; vm_compute; reflexivity. Qed.

(** Over the output file of an earlier run, the first batch asks for
    overwrite mode and leaves the header and its row, nothing of the old
    rows. *)
Lemma save_items_mode_and_header_witness :
  (exists evs,
     trace (snd (save_items shop [boots_item] DEFAULT_FILENAME true
                   earlier_run)) =
     trace earlier_run ++ EvOpen DEFAULT_FILENAME ModeW :: evs)
  /\ files (snd (save_items shop [boots_item] DEFAULT_FILENAME true
                   earlier_run)) !! DEFAULT_FILENAME =
     Some (header_line +:+ boots_line).
Proof.
  destruct (save_items_mode_and_header shop [boots_item] true earlier_run)
    as (_ & Hmode & Hcontent).
  split; [exact Hmode|].
  destruct (Hcontent eq_refl (fun _ => eq_refl)) as (n & Hfile & Hn).
  rewrite (Hn (fun u t _ => eq_refl)) in Hfile. exact Hfile.
Defined.

(** A later batch asks for append mode and leaves its row after the old
    rows. *)
Lemma save_items_appends_after_the_old_rows :
  save_items shop [sandals_item] DEFAULT_FILENAME false earlier_run =
  (Ok tt,
   with_file DEFAULT_FILENAME ("old rows" +:+ sandals_line)
     (buffered EmptyString
        (with_file "/home/user/img/sandals.jpg" "JPEG"
           (later 6
              (log [EvOpen DEFAULT_FILENAME ModeA;
                    EvGet "https://media.newlook.com/sandals.jpg" None;
                    EvSleep 1; EvOpen "/home/user/img/sandals.jpg" ModeWB]
                 earlier_run))))).
Proof. vm_compute. reflexivity. Qed.



Lemma scrape_fatal_on_falsy_page_count_witness :
  scrape empty_shop fresh =
  (Ok tt,
   log [EvPrint MsgFatal]
     (snd (get_json empty_shop 0
             (log [EvPrint MsgFirstPage]
                (snd (ensure_image_dir empty_shop fresh))))))
  /\ files (snd (get_json empty_shop 0
                   (log [EvPrint MsgFirstPage]
                      (snd (ensure_image_dir empty_shop fresh)))))
     = files fresh.
Proof.
  apply (scrape_fatal_on_falsy_page_count empty_shop fresh
           (snd (ensure_image_dir empty_shop fresh)) (listing 0 [])).
  - reflexivity.
  - reflexivity.
  - reflexivity.
  - reflexivity.
Defined.




(** With the network down, the picture of the earlier run is replaced by
    an empty file. *)
Lemma save_image_empties_the_file_on_failed_fetch_witness :
  fst (save_image offline boots_url boots_path earlier_run) = Ok tt
  /\ files (snd (save_image offline boots_url boots_path earlier_run))
     = <[boots_path := EmptyString]> (files earlier_run)
  /\ trace (snd (save_image offline boots_url boots_path earlier_run)) =
     trace (snd (get_response offline boots_url None earlier_run))
     ++ [EvOpen boots_path ModeWB; EvPrint (MsgImage AttributeError)].
Proof.
  destruct (save_image_empties_the_file_on_failed_fetch
              offline boots_url boots_path earlier_run eq_refl)
    as (Hreturns & Hopened & _).
  split; [exact Hreturns|]. apply Hopened. reflexivity.
Defined.

(** C10 as stated fails where the open raises: the fetch has failed, the
    call returns normally, and the picture of the earlier run is still
    there, not an empty file. *)
Lemma picture_survives_when_open_raises :
  fst (get_response offline_locked boots_url None earlier_run) = Ok None
  /\ fst (save_image offline_locked boots_url boots_path earlier_run) = Ok tt
  /\ files (snd (save_image offline_locked boots_url boots_path earlier_run))
       !! boots_path = Some "JPEG".
Proof. repeat split; vm_compute; reflexivity. Qed.

(** * Further properties of the code *)

(** ** [get_response] *)

Lemma get_response_loop_answer E u params n : forall j s r,
  (j < n)%nat ->
  (forall i, (i < j)%nat ->
             requests_get E u params (clock s + i) = None
             /\ requests_raises E u params (clock s + i) = RequestException) ->
  requests_get E u params (clock s + j) = Some r ->
  status_code r = HTTP_OK ->
  get_response_loop E n u params s =
  (Ok (Some r),
   later (S j)
     (log (concat (replicate (S j) [EvGet u params; EvSleep SLEEP_TIME])) s)).
Proof.
  induction n as [|n IH]; intros j s r Hj Hraise Hanswer Hok; [lia|].
  cbn [get_response_loop].
  erewrite bind_ok by (apply attempt_run, http_get_run).
  destruct j as [|j].
  - rewrite Nat.add_0_r in Hanswer. rewrite Hanswer. run sleep_run.
    rewrite Hok. cbn [negb Z.eqb HTTP_OK Pos.eqb]. now tidy.
  - destruct (Hraise 0%nat ltac:(lia)) as [Hnone Hexn].
    rewrite Nat.add_0_r in Hnone, Hexn. rewrite Hnone, Hexn.
    run sleep_run. tidy.
    rewrite (IH j (later 1 (log [EvGet u params; EvSleep SLEEP_TIME] s)) r).
    + tidy. reflexivity.
    + lia.
    + intros i Hi. cbn [clock later log].
      replace (clock s + 1 + i)%nat with (clock s + S i)%nat by lia.
      apply Hraise. lia.
    + cbn [clock later log].
      now replace (clock s + 1 + j)%nat with (clock s + S j)%nat by lia.
    + exact Hok.
Qed.

(** X1: a response whose status is not 200 ends the call at once: one
    request, the delay, the message with the status, and the failure value;
    the request is not repeated. *)
Theorem get_response_status_error_is_final E u params s r :
  requests_get E u params (clock s) = Some r ->
  (status_code r =? HTTP_OK) = false ->
  get_response E u params s =
  (Ok None,
   later 1 (log [EvGet u params; EvSleep SLEEP_TIME;
                 EvPrint (MsgStatus (status_code r) u)] s)).
Proof.
  intros Hanswer Hstatus. unfold get_response, MAX_RETRIES.
  cbn [get_response_loop].
  erewrite bind_ok by (apply attempt_run, http_get_run).
  rewrite Hanswer. run sleep_run. rewrite Hstatus. cbn [negb].
  run print_run. now tidy.
Qed.

(** X2: when the first [j] requests raise a transport error, with [j] below
    [MAX_RETRIES], and the next one is answered with status 200, the call
    returns that response after exactly [j + 1] requests, each followed by
    the delay, and prints nothing. *)
Theorem get_response_retries_until_answer E u params s j r :
  (j < MAX_RETRIES)%nat ->
  (forall i, (i < j)%nat ->
             requests_get E u params (clock s + i) = None
             /\ requests_raises E u params (clock s + i) = RequestException) ->
  requests_get E u params (clock s + j) = Some r ->
  status_code r = HTTP_OK ->
  get_response E u params s =
  (Ok (Some r),
   later (S j)
     (log (concat (replicate (S j) [EvGet u params; EvSleep SLEEP_TIME])) s)).
Proof. apply get_response_loop_answer. Qed.

Lemma get_response_loop_status E u params n : forall s r s',
  get_response_loop E n u params s = (Ok (Some r), s') ->
  status_code r = HTTP_OK.
Proof.
  induction n as [|n IH]; intros s r s' Hrun.
  - cbn [get_response_loop] in Hrun. rewrite (bind_ok _ _ _ _ _ (print_run _ _)) in Hrun.
    discriminate Hrun.
  - cbn [get_response_loop] in Hrun.
    erewrite bind_ok in Hrun by (apply attempt_run, http_get_run).
    destruct (requests_get E u params (clock s)) as [r0|].
    + rewrite (bind_ok _ _ _ _ _ (sleep_run _ _)) in Hrun.
      destruct (Z.eqb_spec (status_code r0) HTTP_OK) as [Heq|Hne];
        cbn [negb] in Hrun.
      * injection Hrun as <- _. exact Heq.
      * rewrite (bind_ok _ _ _ _ _ (print_run _ _)) in Hrun. discriminate Hrun.
    + destruct (requests_raises E u params (clock s));
        try discriminate Hrun.
      rewrite (bind_ok _ _ _ _ _ (sleep_run _ _)) in Hrun. eapply IH, Hrun.
Qed.

(** X3: a response returned by [get_response] always has status 200. *)
Theorem get_response_answers_have_status_ok E u params s r s' :
  get_response E u params s = (Ok (Some r), s') ->
  status_code r = HTTP_OK.
Proof. apply get_response_loop_status. Qed.

(** ** [get_json] *)

Lemma requests_app evs1 evs2 :
  requests (evs1 ++ evs2) = (requests evs1 + requests evs2)%nat.
Proof.
  induction evs1 as [|e evs1 IH]; [reflexivity|].
  destruct e; cbn; now rewrite IH.
Qed.

(** X4: when [get_json] returns, it returns either [False] or an object of
    the payload whose [success] entry is truthy; so its result is truthy
    exactly when the page was fetched successfully. *)
Theorem get_json_returns_false_or_a_successful_payload E page s json :
  fst (get_json E page s) = Ok json ->
  json = PyFalse
  \/ (truthy json = true
      /\ exists kvs flag,
           json = JObj kvs /\ assoc "success" kvs = Some flag
           /\ truthy flag = true).
Proof.
  unfold get_json, get_response.
  destruct (get_response_loop_state E MAX_RETRIES JSON_URL (Some page) s)
    as ([r|e] & k & evs & Hrun & _);
    [|rewrite (bind_exc _ _ _ _ _ Hrun); discriminate].
  run Hrun. destruct r as [r|]; [|cbn; intros [= <-]; now left].
  destruct (json_body r) as [body|].
  - destruct body as [| | | | |l|kvs];
      try (cbn; discriminate).
    unfold lift, dict_get. erewrite bind_ok by reflexivity.
    destruct (assoc "success" kvs) as [flag|] eqn:Hflag.
    + destruct (truthy flag) eqn:Htrue; cbn [negb].
      * cbn. intros [= <-]. right. split.
        -- destruct kvs; [discriminate Hflag|reflexivity].
        -- now exists kvs, flag.
      * run print_run. cbn. intros [= <-]. now left.
    + cbn [truthy PyFalse negb]. run print_run. cbn. intros [= <-]. now left.
  - run print_run. cbn. intros [= <-]. now left.
Qed.

Lemma get_response_first_answer E u params s r :
  requests_get E u params (clock s) = Some r ->
  status_code r = HTTP_OK ->
  get_response E u params s =
  (Ok (Some r), later 1 (log [EvGet u params; EvSleep SLEEP_TIME] s)).
Proof.
  intros Hanswer Hok.
  apply (get_response_loop_answer E u params MAX_RETRIES 0 s r).
  - unfold MAX_RETRIES. lia.
  - intros i Hi. lia.
  - now rewrite Nat.add_0_r.
  - exact Hok.
Qed.

(** X5: a response with status 200 whose body is valid JSON but not an
    object (a list, a string, a number, null) makes [get_json] raise
    [AttributeError]: the call of [.get] is outside the [try]. *)
Theorem get_json_raises_on_a_payload_that_is_no_object E page s r json :
  requests_get E JSON_URL (Some page) (clock s) = Some r ->
  status_code r = HTTP_OK ->
  json_body r = Some json ->
  (forall kvs, json <> JObj kvs) ->
  get_json E page s =
  (Exc AttributeError,
   later 1 (log [EvGet JSON_URL (Some page); EvSleep SLEEP_TIME] s)).
Proof.
  intros Hanswer Hok Hbody Hshape. unfold get_json.
  erewrite bind_ok by (apply get_response_first_answer; eassumption).
  cbv beta iota. rewrite Hbody.
  destruct json as [| | | | | |kvs]; try reflexivity.
  now destruct (Hshape kvs).
Qed.

(** X6: fetching a page costs at most [MAX_RETRIES] requests and touches
    nothing but the clock and the trace: no file or directory changes,
    whatever the server answers and whether the call returns or raises. *)
Theorem get_json_costs_at_most_max_retries E page s :
  exists r k evs,
    get_json E page s = (r, later k (log evs s))
    /\ requests evs = k /\ (k <= MAX_RETRIES)%nat.
Proof.
  unfold get_json, get_response.
  destruct (get_response_loop_state E MAX_RETRIES JSON_URL (Some page) s)
    as ([r|e] & k & evs & Hrun & Hk & Hle & _);
    [|rewrite (bind_exc _ _ _ _ _ Hrun); now eexists _, k, evs].
  run Hrun. destruct r as [r|]; [|now exists (Ok PyFalse), k, evs].
  destruct (json_body r) as [json|].
  - unfold lift at 1.
    destruct (dict_get json "success" PyFalse) as [success|e].
    + erewrite bind_ok by reflexivity.
      destruct (negb (truthy success)).
      * run print_run. tidy. eexists _, k, _. split; [reflexivity|].
        rewrite requests_app, Hk. cbn. split; lia.
      * now eexists _, k, evs.
    + erewrite bind_exc by reflexivity. now eexists _, k, evs.
  - run print_run. tidy. eexists _, k, _. split; [reflexivity|].
    rewrite requests_app, Hk. cbn. split; lia.
Qed.

(** ** [re.sub] on whitespace *)

Lemma sub_spaces_single_spaced s :
  forall b, single_spaced b (sub_spaces b s) = true.
Proof.
  induction s as [|c s IH]; intros b; [reflexivity|].
  cbn [sub_spaces]. destruct (is_space c) eqn:Hc.
  - destruct b; [apply IH|].
    cbn [single_spaced]. change (is_space " ") with true. cbv beta iota.
    rewrite IH. reflexivity.
  - cbn [single_spaced]. rewrite Hc. apply IH.
Qed.

Lemma single_spaced_fixed s :
  forall b, single_spaced b s = true -> sub_spaces b s = s.
Proof.
  induction s as [|c s IH]; intros b Hs; [reflexivity|].
  cbn [single_spaced sub_spaces] in *. destruct (is_space c) eqn:Hc.
  - apply andb_prop in Hs as [Hs Htail]. apply andb_prop in Hs as [Hsp Hb].
    apply Ascii.eqb_eq in Hsp. subst c.
    destruct b; [discriminate Hb|].
    now rewrite (IH true Htail).
  - now rewrite (IH false Hs).
Qed.

(** X7: the result of the whitespace substitution holds no whitespace
    character other than the space, and never two spaces in a row. *)
Theorem re_sub_spaces_is_single_spaced (s : string) :
  single_spaced false (re_sub_spaces s) = true.
Proof. unfold re_sub_spaces. apply sub_spaces_single_spaced. Qed.

(** X8: a string that is already single-spaced is returned as it is; with
    X7, the strings the substitution leaves alone are exactly its
    results. *)
Theorem re_sub_spaces_keeps_single_spaced (s : string) :
  single_spaced false s = true -> re_sub_spaces s = s.
Proof. unfold re_sub_spaces. apply single_spaced_fixed. Qed.

(** X9: the substitution never makes a string longer. *)
Theorem re_sub_spaces_never_longer (s : string) :
  (String.length (re_sub_spaces s) <= String.length s)%nat.
Proof.
  unfold re_sub_spaces. generalize false.
  induction s as [|c s IH]; intros b; [reflexivity|].
  cbn [sub_spaces String.length].
  destruct (is_space c); [destruct b|];
    cbn [String.length]; specialize (IH true) as Ht; specialize (IH false) as Hf;
    lia.
Qed.

(** ** [get_items] *)

Lemma extract_skipped_length E results :
  (length (extract E results) + length (skipped E results))%nat
  = length results.
Proof.
  induction results as [|it rest IH]; [reflexivity|].
  rewrite extract_cons, skipped_cons.
  destruct (new_item E it); cbn [length]; lia.
Qed.

(** X10: every entry of the page is accounted for exactly once: the number
    of items returned plus the number of messages printed is the number of
    entries; nothing else changes. *)
Theorem get_items_accounts_for_every_entry E json results s :
  results_field json = Ok results ->
  exists items msgs,
    get_items E json s = (Ok items, log msgs s)
    /\ (length items + length msgs)%nat = length results.
Proof.
  intros Hres. exists (extract E results), (skipped E results).
  split; [now apply get_items_run|apply extract_skipped_length].
Qed.

Lemma new_item_well_formed E entry it :
  new_item E entry = Ok it -> well_formed it.
Proof.
  unfold new_item, res_bind.
  destruct (getitem entry "name"); [|discriminate].
  destruct (getitem entry "url") as [u|]; [|discriminate].
  destruct (str_add BASE_URL u) as [u'|] eqn:Hu; [|discriminate].
  destruct (getitem entry "price") as [p|]; [|discriminate].
  destruct (getitem p "formattedValue"); [|discriminate].
  destruct (getitem entry "images") as [imgs|]; [|discriminate].
  destruct (getitem0 imgs) as [img|]; [|discriminate].
  destruct (getitem img "url") as [iu|]; [|discriminate].
  destruct (str_add "https:" iu) as [im|] eqn:Him; [|discriminate].
  destruct (getitem entry "description") as [d|]; [|discriminate].
  destruct d; try discriminate. intros [= <-].
  destruct u; try discriminate Hu. destruct iu; try discriminate Him.
  injection Hu as <-. injection Him as <-.
  repeat split; cbn [url image description]; eauto.
  apply sub_spaces_single_spaced.
Qed.

Lemma extract_well_formed E results : Forall well_formed (extract E results).
Proof.
  induction results as [|it rest IH]; [constructor|].
  rewrite extract_cons. destruct (new_item E it) eqn:Hnew; [|exact IH].
  constructor; [eapply new_item_well_formed, Hnew|exact IH].
Qed.

(** X11: every record [get_items] returns has an absolute product address
    (it starts with [BASE_URL]), an image address that starts with
    [https:], and a single-spaced description. *)
Theorem get_items_returns_well_formed_records E json s items :
  fst (get_items E json s) = Ok items -> Forall well_formed items.
Proof.
  unfold get_items, lift.
  destruct (results_field json) as [results|e] eqn:Hres.
  - erewrite bind_ok by reflexivity. rewrite get_items_loop_run.
    cbn. intros [= <-]. apply extract_well_formed.
  - cbn. discriminate.
Qed.

Lemma extract_no_objects E results :
  Forall (fun entry => forall kvs, entry <> JObj kvs) results ->
  extract E results = [].
Proof.
  induction 1 as [|entry rest Hentry _ IH]; [reflexivity|].
  rewrite extract_cons.
  destruct entry; try exact IH. now destruct (Hentry kvs).
Qed.

(** X12: entries that are not objects are all skipped; in particular,
    when the payload's [results] is itself an object or a string, the loop
    runs over its keys or characters and [get_items] returns the empty
    list. *)
Theorem get_items_skips_entries_that_are_no_objects E json results s :
  results_field json = Ok results ->
  Forall (fun entry => forall kvs, entry <> JObj kvs) results ->
  fst (get_items E json s) = Ok [].
Proof.
  intros Hres Hshape. rewrite (get_items_run E json results s Hres).
  cbn. now rewrite extract_no_objects.
Qed.

(** X13: [get_items] keeps the order of the entries and treats them one by
    one: the items of a page whose entries are those of two pages, one
    after the other, are the items of the first followed by the items of
    the second. *)
Theorem get_items_of_joined_results E json1 json2 json results1 results2 s :
  results_field json1 = Ok results1 ->
  results_field json2 = Ok results2 ->
  results_field json = Ok (results1 ++ results2) ->
  exists items1 items2,
    fst (get_items E json1 s) = Ok items1
    /\ fst (get_items E json2 s) = Ok items2
    /\ fst (get_items E json s) = Ok (items1 ++ items2).
Proof.
  intros H1 H2 H. exists (extract E results1), (extract E results2).
  rewrite (get_items_run E json1 _ s H1), (get_items_run E json2 _ s H2),
    (get_items_run E json _ s H).
  cbn. now rewrite extract_app.
Qed.

(** ** File names of images *)

Lemma last_segment_no_slash s : has_slash (last_segment s) = false.
Proof.
  induction s as [|c s IH]; [reflexivity|].
  cbn [last_segment]. destruct (has_slash s) eqn:Hs; [exact IH|].
  destruct (Ascii.eqb c slash) eqn:Hc; [exact Hs|].
  cbn [has_slash]. now rewrite Hc, Hs.
Qed.

(** X14: [split('/')[-1]] is what follows the last slash: a string without
    a slash is its own last segment, and it is the last segment of whatever
    precedes it, once a slash is put in between. *)
Theorem last_segment_follows_the_last_slash (tail : string) :
  has_slash tail = false ->
  last_segment tail = tail
  /\ forall front, last_segment (front +:+ String slash tail) = tail.
Proof.
  intros Htail. split.
  - destruct tail as [|c tail]; [reflexivity|].
    cbn [last_segment]. cbn [has_slash] in Htail.
    apply orb_false_elim in Htail as [Hc Ht]. now rewrite Ht, Hc.
  - intros front. induction front as [|x front IH].
    + rewrite append_nil_l. cbn [last_segment]. rewrite Htail.
      now rewrite Ascii.eqb_refl.
    + rewrite append_cons. cbn [last_segment].
      rewrite has_slash_app. cbn [has_slash]. rewrite Ascii.eqb_refl.
      cbn [orb]. now rewrite orb_true_r.
Qed.

(** X15: an image is saved directly in the image directory of the working
    directory, under the last segment of its address, which holds no
    slash. *)
Theorem image_filename_lies_in_the_image_directory E u :
  image_filename E u =
  path_join2 (getcwd E) IMAGE_DIR +:+ "/" +:+ last_segment u
  /\ has_slash (last_segment u) = false
  /\ path_join2 (getcwd E) IMAGE_DIR =
     (if String.eqb (getcwd E) "" || ends_with_slash (getcwd E)
      then getcwd E else getcwd E +:+ "/") +:+ IMAGE_DIR.
Proof.
  split; [|split; [apply last_segment_no_slash|]].
  - unfold image_filename, path_join3.
    set (d := path_join2 (getcwd E) IMAGE_DIR).
    assert (Hd : ends_with_slash d = false /\ d <> EmptyString).
    { unfold d, path_join2.
      destruct (String.eqb (getcwd E) "" || ends_with_slash (getcwd E)).
      - split; [now rewrite ends_with_slash_app|].
        destruct (getcwd E); discriminate.
      - split; [now rewrite !ends_with_slash_app|].
        destruct (getcwd E); discriminate. }
    destruct Hd as [Hend Hne]. unfold path_join2 at 1. rewrite Hend.
    now destruct (String.eqb_spec d "").
  - unfold path_join2.
    destruct (String.eqb (getcwd E) "" || ends_with_slash (getcwd E));
      [reflexivity|now rewrite append_assoc].
Qed.

(** ** [save_image] *)

Lemma get_response_idle E u params s r s1 :
  get_response E u params s = (Ok r, s1) ->
  files s1 = files s /\ dirs s1 = dirs s.
Proof.
  destruct (get_response_loop_state E MAX_RETRIES u params s)
    as (r' & k & evs & Hrun & _).
  unfold get_response. rewrite Hrun. now intros [= _ <-].
Qed.

(** X17: when the image is fetched and the file opens and takes the write,
    the file holds exactly the body of the response, whatever it held
    before, and nothing is printed. *)
Theorem save_image_stores_the_body E u filename s r s1 :
  get_response E u None s = (Ok (Some r), s1) ->
  open_raises E filename ModeWB (clock s1) = false ->
  write_raises E filename (S (clock s1)) = false ->
  exists s',
    save_image E u filename s = (Ok tt, s')
    /\ files s' = <[filename := content r]> (files s)
    /\ trace s' = trace s1 ++ [EvOpen filename ModeWB].
Proof.
  intros Hfetch Hopen Hwrite.
  destruct (get_response_idle E u None s _ _ Hfetch) as [Hfiles _].
  eexists. split; [apply (save_image_after E u filename s _ _ Hfetch)|].
  unfold image_outcome. rewrite Hopen, Hwrite. cbn.
  now rewrite insert_insert_eq, Hfiles.
Qed.

(** X18: however it ends, [save_image] creates no directory and leaves
    every file other than its destination as it was; it returns normally
    unless [get_response] raises, and then it raises the same exception in
    the state [get_response] left, the destination untouched as well. *)
Theorem save_image_touches_only_its_destination E u filename s :
  exists r s',
    save_image E u filename s = (r, s')
    /\ dirs s' = dirs s
    /\ (forall path, path <> filename -> files s' !! path = files s !! path)
    /\ (r = Ok tt
        \/ exists e, r = Exc e
                     /\ get_response E u None s = (Exc e, s')
                     /\ files s' = files s).
Proof.
  destruct (save_image_state E u filename s)
    as (r & s' & Hrun & (Hdirs & _ & Hfiles & _) & Hend).
  exists r, s'. repeat split; auto.
  destruct Hend as [Hok|(e & He & Hfetch)]; [now left|].
  right. exists e. repeat split; auto.
  destruct (get_response_loop_state E MAX_RETRIES u None s)
    as (r' & k & evs & Hloop & _).
  unfold get_response in Hfetch. rewrite Hloop in Hfetch.
  now injection Hfetch as _ <-.
Qed.

(** X19: when the image is fetched and the file opens but the write
    raises, the destination is left empty, whatever it held before: the
    open has already truncated it.  The error is printed and the call
    returns normally. *)
Theorem save_image_leaves_an_empty_file_when_the_write_raises
  E u filename s r s1 :
  get_response E u None s = (Ok (Some r), s1) ->
  open_raises E filename ModeWB (clock s1) = false ->
  write_raises E filename (S (clock s1)) = true ->
  exists s',
    save_image E u filename s = (Ok tt, s')
    /\ files s' = <[filename := EmptyString]> (files s)
    /\ trace s' = trace s1 ++ [EvOpen filename ModeWB; EvPrint MsgImageDisk].
Proof.
  intros Hfetch Hopen Hwrite.
  destruct (get_response_idle E u None s _ _ Hfetch) as [Hfiles _].
  eexists. split; [apply (save_image_after E u filename s _ _ Hfetch)|].
  unfold image_outcome. rewrite Hopen, Hwrite. cbn.
  rewrite Hfiles. split; [reflexivity|]. now rewrite <- app_assoc.
Qed.

(** ** [save_items] *)

(** X20: [save_items] returns normally in every world and for every batch:
    whatever is raised while the file is open is caught and printed. *)
Theorem save_items_never_raises E items filename first_page s :
  fst (save_items E items filename first_page s) = Ok tt.
Proof.
  unfold save_items.
  match goal with
  | |- fst (bind (attempt ?body) _ s) = _ =>
      destruct (body s) as [[[]|e] s'] eqn:Hbody;
      erewrite bind_ok by (apply attempt_run, Hbody)
  end.
  - reflexivity.
  - now destruct e.
Qed.

(** X21: when the open of the output file raises, [save_items] prints the
    error and does nothing else: no image is requested, no file changes,
    and the records of the batch are lost for the output. *)
Theorem save_items_does_nothing_when_the_open_raises
  E items filename first_page s :
  open_raises E filename (open_mode first_page) (clock s) = true ->
  let s' := snd (save_items E items filename first_page s) in
  files s' = files s
  /\ clock s' = S (clock s)
  /\ trace s' =
     trace s ++ [EvOpen filename (open_mode first_page); EvPrint MsgCsvDisk].
Proof.
  intros Hopen. cbn zeta. rewrite save_items_open_raises by exact Hopen.
  cbn. repeat split. lia.
Qed.

(** The first thing [get_response] does is to send a request. *)
Lemma get_response_loop_requests E n u params s :
  exists evs,
    trace (snd (get_response_loop E (S n) u params s)) =
    trace s ++ EvGet u params :: evs.
Proof.
  cbn [get_response_loop].
  erewrite bind_ok by (apply attempt_run, http_get_run).
  destruct (requests_get E u params (clock s)) as [r|].
  - run sleep_run. destruct (negb (status_code r =? HTTP_OK)).
    + run print_run.
      exists [EvSleep SLEEP_TIME; EvPrint (MsgStatus (status_code r) u)].
      cbn. now rewrite <- !app_assoc.
    + exists [EvSleep SLEEP_TIME]. cbn. now rewrite <- !app_assoc.
  - destruct (requests_raises E u params (clock s)).
    all: try (now exists []).
    run sleep_run.
    match goal with
    | |- context [get_response_loop E n u params ?s1] =>
        destruct (get_response_loop_state E n u params s1)
          as (r & k & evs & Hrun & _)
    end.
    rewrite Hrun. exists (EvSleep SLEEP_TIME :: evs). cbn.
    now rewrite <- !app_assoc.
Qed.

Lemma get_response_requests E u params s :
  exists evs,
    trace (snd (get_response E u params s)) = trace s ++ EvGet u params :: evs.
Proof. apply get_response_loop_requests. Qed.

Lemma writerow_buffers E filename fields s :
  spills E filename (clock s) = false ->
  writerow E filename fields s =
  (Ok tt, later 1 (buffered (pending s +:+ csv_line fields) s)).
Proof. intros Hspill. rewrite writerow_run. cbn zeta. now rewrite Hspill. Qed.

Lemma append_empty (a b : string) :
  a +:+ b = EmptyString -> a = EmptyString /\ b = EmptyString.
Proof. destruct a; [now rewrite append_nil_l|discriminate]. Qed.

Lemma csv_line_not_empty fields : csv_line fields <> EmptyString.
Proof.
  assert (Hjoin : csv_join fields +:+ CRLF <> EmptyString).
  { intros H. apply append_empty in H as [_ H]. discriminate H. }
  destruct fields as [|[|c f] [|g rest]]; try exact Hjoin. discriminate.
Qed.

(** While the buffer does not spill, the loop does not touch the output
    file, whatever the disk would do: it requests the image of every
    record and hands every row to the writer. *)
Lemma save_items_loop_buffers E items filename s :
  (forall t, spills E filename t = false) ->
  Forall (fun it => image_filename E (image it) <> filename) items ->
  Forall (fun it => only_transport_errors E (image it) None) items ->
  exists s' evs,
    save_items_loop E items filename s = (Ok tt, s')
    /\ files s' !! filename = files s !! filename
    /\ pending s' = pending s +:+ csv_text (rows_of E items)
    /\ trace s' = trace s ++ evs
    /\ Forall (fun it => In (EvGet (image it) None) evs) items.
Proof.
  intros Hspill Hpaths. revert s.
  induction Hpaths as [|it rest Hpath _ IH]; intros s Honly.
  - exists s, []. cbn. now rewrite app_nil_r, append_nil_r.
  - inversion Honly as [|? ? Hit Hrest]; subst. cbn [save_items_loop].
    destruct (save_image_run E (image it) (image_filename E (image it)) s Hit)
      as (s1 & Himg & _ & Hp1 & Hf1 & evs1 & Ht1).
    destruct (get_response_requests E (image it) None s) as (evs0 & Hget).
    assert (Hsent : In (EvGet (image it) None) evs1).
    { destruct (get_response E (image it) None s) as [[r|e] s0] eqn:Hfetch.
      - rewrite (save_image_after E _ _ s r s0 Hfetch) in Himg.
        injection Himg as <-.
        destruct (image_outcome_touches E r (image_filename E (image it)) s0)
          as (_ & _ & _ & evs2 & Ht2).
        cbn [snd] in Hget. rewrite Ht2, Hget, <- app_assoc in Ht1.
        apply app_inv_head in Ht1. subst evs1. now left.
      - rewrite (save_image_raises E _ _ s e s0 Hfetch) in Himg.
        discriminate Himg. }
    run Himg. erewrite bind_ok by (apply writerow_buffers, Hspill).
    match goal with
    | |- context [save_items_loop E rest filename ?s2] =>
        destruct (IH s2 Hrest) as (s' & evs & Hloop & Hfile & Hpend & Ht & Hall)
    end.
    exists s', (evs1 ++ evs). split; [exact Hloop|].
    split; [|split; [|split]].
    + rewrite Hfile. cbn [files later buffered]. now apply Hf1.
    + rewrite Hpend. cbn [pending later buffered rows_of map csv_text].
      now rewrite Hp1, append_assoc.
    + rewrite Ht. cbn [trace later buffered]. now rewrite Ht1, app_assoc.
    + constructor; [apply in_or_app; now left|].
      eapply Forall_impl; [exact Hall|]. intros it' Hin.
      apply in_or_app. now right.
Qed.

(** X22: a disk that refuses the rows is noticed where the buffer of the
    output file is written out.  When the buffer does not spill during the
    batch and the disk refuses every write, then, if there is anything to
    write (the header or a row), the image of every record of the batch is
    requested all the same; the error is the last thing printed, after all
    these requests, the output file holds what the open left in it, and the
    call returns normally. *)
Theorem save_items_notices_a_full_disk_at_the_close E items first_page s :
  open_raises E DEFAULT_FILENAME (open_mode first_page) (clock s) = false ->
  (forall t, spills E DEFAULT_FILENAME t = false) ->
  (forall t, write_raises E DEFAULT_FILENAME t = true) ->
  (forall u, only_transport_errors E u None) ->
  first_page = true \/ items <> [] ->
  exists s' evs,
    save_items E items DEFAULT_FILENAME first_page s = (Ok tt, s')
    /\ trace s' =
       trace s ++ EvOpen DEFAULT_FILENAME (open_mode first_page) :: evs
       ++ [EvPrint MsgCsvDisk]
    /\ Forall (fun it => In (EvGet (image it) None) evs) items
    /\ files s' !! DEFAULT_FILENAME =
       Some (if first_page then EmptyString
             else content_of DEFAULT_FILENAME s).
Proof.
  intros Hopen Hspill Hfull Himages Hsome. unfold save_items.
  fold (open_mode first_page).
  pose proof (open_run E DEFAULT_FILENAME (open_mode first_page) s) as Ho.
  rewrite Hopen in Ho.
  match type of Ho with _ = (_, ?st) => set (s1 := st) in Ho end.
  assert (Hhead : exists s2,
    (if first_page then writerow E DEFAULT_FILENAME titles else ret tt)
      (buffered EmptyString s1) = (Ok tt, s2)
    /\ files s2 = files s1 /\ trace s2 = trace s1
    /\ pending s2 = if first_page then csv_line titles else EmptyString).
  { destruct first_page.
    - rewrite writerow_buffers by apply Hspill. now eexists.
    - now eexists. }
  destruct Hhead as (s2 & Hrow & Hf2 & Ht2 & Hp2).
  destruct (save_items_loop_buffers E items DEFAULT_FILENAME s2 Hspill)
    as (s3 & evs & Hloop & Hf3 & Hp3 & Ht3 & Hall).
  { apply Forall_forall. intros it _. apply image_filename_not_output. }
  { apply Forall_forall. intros it _. apply Himages. }
  assert (Hwaiting : String.eqb (pending s3) EmptyString = false).
  { apply String.eqb_neq. rewrite Hp3, Hp2. intros Hnone.
    apply append_empty in Hnone as [Hhead Hrows].
    destruct Hsome as [->|Hitems].
    - now apply (csv_line_not_empty titles).
    - destruct items as [|it rest]; [now apply Hitems|].
      cbn [rows_of map csv_text] in Hrows.
      apply append_empty in Hrows as [Hline _].
      now apply (csv_line_not_empty _ Hline). }
  pose proof (flush_run E DEFAULT_FILENAME s3) as Hflush.
  rewrite Hwaiting, Hfull in Hflush.
  erewrite bind_ok.
  2:{ apply attempt_run. erewrite bind_ok by exact Ho. unfold closing.
      rewrite (bind_ok _ _ _ _ _ (set_pending_run _ _)).
      erewrite bind_ok
        by (apply attempt_run; erewrite bind_ok by exact Hrow; exact Hloop).
      apply (bind_exc _ _ _ _ _ Hflush). }
  cbv beta iota. rewrite print_run. eexists _, evs.
  split; [reflexivity|]. split; [|split; [exact Hall|]].
  - cbn [trace log later buffered]. rewrite Ht3, Ht2. unfold s1.
    cbn [trace with_file later log]. now rewrite <- !app_assoc.
  - cbn [files log later buffered]. rewrite Hf3, Hf2. unfold s1.
    cbn [files with_file later log]. rewrite lookup_insert_eq.
    now destruct first_page.
Qed.

(** X23: writing two batches one call after the other, the second in
    append mode, leaves the output file with the same text as writing the
    two batches as one, when the file opens and takes every write and
    every request for an image is answered or fails with a transport
    error. *)
Theorem save_items_in_two_calls_or_in_one E items1 items2 first_page s :
  (forall m t, open_raises E DEFAULT_FILENAME m t = false) ->
  (forall t, write_raises E DEFAULT_FILENAME t = false) ->
  (forall u, only_transport_errors E u None) ->
  let s1 := snd (save_items E items1 DEFAULT_FILENAME first_page s) in
  files (snd (save_items E items2 DEFAULT_FILENAME false s1))
    !! DEFAULT_FILENAME
  = files (snd (save_items E (items1 ++ items2) DEFAULT_FILENAME first_page s))
      !! DEFAULT_FILENAME.
Proof.
  intros Hopen Hwrite Himages. cbn zeta.
  assert (Hpaths : forall items,
    Forall (fun it => image_filename E (image it) <> DEFAULT_FILENAME) items).
  { intros items. apply Forall_forall. intros it _.
    apply image_filename_not_output. }
  assert (Hall : forall items,
    Forall (fun it => only_transport_errors E (image it) None) items).
  { intros items. apply Forall_forall. intros it _. apply Himages. }
  destruct (save_items_run E items1 DEFAULT_FILENAME first_page s
              (Hopen _ _) Hwrite (Hpaths _))
    as (s1 & n1 & evs1 & Hrun1 & Hfile1 & _ & Hn1).
  destruct (save_items_run E items2 DEFAULT_FILENAME false s1
              (Hopen _ _) Hwrite (Hpaths _))
    as (s2 & n2 & evs2 & Hrun2 & Hfile2 & _ & Hn2).
  destruct (save_items_run E (items1 ++ items2) DEFAULT_FILENAME first_page s
              (Hopen _ _) Hwrite (Hpaths _))
    as (s' & n & evs & Hrun & Hfile & _ & Hn).
  rewrite (Hn1 (Hall _)), firstn_all in Hfile1.
  rewrite (Hn2 (Hall _)), firstn_all in Hfile2.
  rewrite (Hn (Hall _)), firstn_all in Hfile.
  rewrite Hrun1. cbn [snd]. rewrite Hrun2, Hrun. cbn [snd].
  rewrite Hfile2, Hfile. unfold start_text at 1, content_of.
  rewrite Hfile1. cbn [default id].
  now rewrite rows_of_app, csv_text_app, append_assoc.
Qed.

(** ** [scrape] *)

Lemma ensure_image_dir_fails E s :
  IMAGE_DIR ∉ dirs s ->
  files s !! IMAGE_DIR = None ->
  mkdir_raises E IMAGE_DIR (clock s) = true ->
  ensure_image_dir E s = (Ok false, log [EvPrint MsgMkdir] (later 1 s)).
Proof.
  intros Hdir Hfile Hraise. unfold ensure_image_dir, path_exists.
  erewrite bind_ok by reflexivity.
  rewrite (bool_decide_eq_false_2 _ Hdir), Hfile.
  rewrite bool_decide_eq_false_2 by (intros [x Hx]; discriminate Hx).
  cbn [orb].
  assert (Hmk : mkdir E IMAGE_DIR s = (Exc OSError, later 1 s)).
  { unfold mkdir. run tick_run. now rewrite Hraise. }
  erewrite bind_ok by (apply attempt_run, Hmk). cbv beta iota.
  now run print_run.
Qed.

(** X24: when the image directory is missing and cannot be created,
    [scrape] prints the error and returns: it requests no page and writes
    no file. *)
Theorem scrape_stops_when_the_image_directory_cannot_be_made E s :
  IMAGE_DIR ∉ dirs s ->
  files s !! IMAGE_DIR = None ->
  mkdir_raises E IMAGE_DIR (clock s) = true ->
  scrape E s = (Ok tt, log [EvPrint MsgMkdir] (later 1 s)).
Proof.
  intros Hdir Hfile Hraise. unfold scrape.
  now erewrite bind_ok by (apply ensure_image_dir_fails; assumption).
Qed.

(** X25: when the fetch of the first page fails, [scrape] prints the fatal
    message and returns: the page count is not read, no later page is
    requested and the files are those it started from. *)
Theorem scrape_stops_when_the_first_page_fails E s0 s1 s2 :
  ensure_image_dir E s0 = (Ok true, s1) ->
  get_json E 0 (log [EvPrint MsgFirstPage] s1) = (Ok PyFalse, s2) ->
  scrape E s0 = (Ok tt, log [EvPrint MsgFatal] s2)
  /\ files s2 = files s0.
Proof.
  intros Hready Hjson. split.
  - unfold scrape. run Hready. cbn [negb]. run print_run. run Hjson.
    reflexivity.
  - destruct (ensure_image_dir_run E s0) as (r & s' & Hrun & Hfiles).
    rewrite Hready in Hrun. injection Hrun as _ <-.
    pose proof (get_json_files E 0 (log [EvPrint MsgFirstPage] s1)) as H.
    rewrite Hjson in H. cbn in H. now rewrite H, Hfiles.
Qed.

(** X26: a page count that is truthy but neither an integer nor a boolean
    (a string, a float, a list) makes [scrape] raise [TypeError] at
    [range]: nothing is extracted or written, although the first page was
    fetched. *)
Theorem scrape_raises_on_a_page_count_that_is_no_integer E s0 s1 json s2 :
  ensure_image_dir E s0 = (Ok true, s1) ->
  get_json E 0 (log [EvPrint MsgFirstPage] s1) = (Ok json, s2) ->
  truthy json = true ->
  truthy (page_count_of json) = true ->
  (forall z, page_count_of json <> JInt z) ->
  (forall b, page_count_of json <> JBool b) ->
  scrape E s0 = (Exc TypeError, s2) /\ files s2 = files s0.
Proof.
  intros Hready Hjson Htrue Hcount Hint Hbool. split.
  - unfold scrape. run Hready. cbn [negb]. run print_run. run Hjson.
    rewrite Htrue. cbn [negb]. run get_page_count_run.
    rewrite Hcount. cbn [negb].
    assert (Hfield : exists v, page_count_field json = Ok v).
    { unfold page_count_of in Hcount.
      destruct (page_count_field json); [eauto|discriminate Hcount]. }
    destruct Hfield as (v & Hfield). rewrite Hfield, log_nil.
    unfold lift, bind.
    destruct (page_count_of json) as [|b|z| | | |] eqn:Hpc; try reflexivity.
    + now destruct (Hbool b).
    + now destruct (Hint z).
  - destruct (ensure_image_dir_run E s0) as (r & s' & Hrun & Hfiles).
    rewrite Hready in Hrun. injection Hrun as _ <-.
    pose proof (get_json_files E 0 (log [EvPrint MsgFirstPage] s1)) as H.
    rewrite Hjson in H. cbn in H. now rewrite H, Hfiles.
Qed.

(** X27: a negative page count is truthy and gives an empty range: [scrape]
    reports that the process is done without having extracted or written
    anything, not even the first page it has fetched. *)
Theorem scrape_reports_done_on_a_negative_page_count E s0 s1 json s2 z :
  ensure_image_dir E s0 = (Ok true, s1) ->
  get_json E 0 (log [EvPrint MsgFirstPage] s1) = (Ok json, s2) ->
  truthy json = true ->
  page_count_field json = Ok (JInt z) ->
  z < 0 ->
  scrape E s0 = (Ok tt, log [EvPrint MsgDone] s2) /\ files s2 = files s0.
Proof.
  intros Hready Hjson Htrue Hfield Hneg. split.
  - unfold scrape. run Hready. cbn [negb]. run print_run. run Hjson.
    rewrite Htrue. cbn [negb]. run get_page_count_run.
    unfold page_count_of. rewrite Hfield, log_nil. cbn [truthy].
    destruct (Z.eqb_spec z 0) as [|_]; [lia|]. cbn [negb].
    erewrite bind_ok by reflexivity.
    destruct z as [|p|p]; try lia. reflexivity.
  - destruct (ensure_image_dir_run E s0) as (r & s' & Hrun & Hfiles).
    rewrite Hready in Hrun. injection Hrun as _ <-.
    pose proof (get_json_files E 0 (log [EvPrint MsgFirstPage] s1)) as H.
    rewrite Hjson in H. cbn in H. now rewrite H, Hfiles.
Qed.

(** ** What a whole run respects *)

Lemma throttled_app evs1 evs2 :
  throttled evs1 = true -> throttled evs2 = true ->
  throttled (evs1 ++ evs2) = true.
Proof.
  intros H1 H2. induction evs1 as [|e evs1 IH]; [exact H2|].
  destruct e; cbn [app throttled] in *; auto.
  destruct evs1 as [|[]]; try discriminate H1.
  apply andb_prop in H1 as [Hn Htail].
  cbn [app]. rewrite Hn. cbn [andb]. apply IH, Htail.
Qed.

#[local] Instance paced_preorder : PreOrder paced.
Proof.
  split.
  - intros s. exists []. now rewrite app_nil_r.
  - intros s1 s2 s3 (evs1 & H1 & T1) (evs2 & H2 & T2).
    exists (evs1 ++ evs2). rewrite H2, H1, app_assoc.
    split; [reflexivity|now apply throttled_app].
Qed.

Lemma paced_log evs s : throttled evs = true -> paced s (log evs s).
Proof. intros H. now exists evs. Qed.

Lemma paced_idle k evs s :
  throttled evs = true -> paced s (later k (log evs s)).
Proof. intros H. now exists evs. Qed.

Lemma paced_same_trace s s' : trace s' = trace s -> paced s s'.
Proof. intros H. exists []. now rewrite app_nil_r. Qed.

Section Paced.

Variable E : env.

Hypothesis answered : forall u params, only_transport_errors E u params.

Lemma print_paced m : respects paced (print m).
Proof. intros s. now apply paced_log. Qed.

Lemma tick_paced : respects paced tick.
Proof. intros s. now apply paced_same_trace. Qed.

Lemma get_pending_paced : respects paced get_pending.
Proof. intros s. reflexivity. Qed.

Lemma set_pending_paced data : respects paced (set_pending data).
Proof. intros s. now apply paced_same_trace. Qed.

Lemma open_paced path m : respects paced (open_ E path m).
Proof.
  intros s. rewrite open_run.
  destruct (open_raises E path m (clock s)); now exists [EvOpen path m].
Qed.

Lemma write_paced path data : respects paced (write_ E path data).
Proof.
  intros s. rewrite write_run.
  destruct (write_raises E path (clock s)); now apply paced_same_trace.
Qed.

Lemma mkdir_paced path : respects paced (mkdir E path).
Proof.
  intros s. unfold mkdir. rewrite (bind_ok _ _ _ _ _ (tick_run s)).
  destruct (mkdir_raises E path (clock s)); now apply paced_same_trace.
Qed.

Lemma path_exists_paced path : respects paced (path_exists path).
Proof. intros s. reflexivity. Qed.

Lemma get_response_paced u params : respects paced (get_response E u params).
Proof using answered.
  intros s.
  destruct (get_response_loop_run E MAX_RETRIES u params s (answered u params))
    as (r & k & evs & Hrun & Hthr & _).
  unfold get_response. rewrite Hrun. now apply paced_idle.
Qed.

Hint Resolve print_paced tick_paced get_pending_paced set_pending_paced
  open_paced write_paced mkdir_paced path_exists_paced get_response_paced
  : respects.

Lemma get_json_paced page : respects paced (get_json E page).
Proof using answered. unfold get_json. respect. Qed.

Lemma get_page_count_paced json : respects paced (get_page_count json).
Proof. unfold get_page_count. respect. Qed.

Lemma get_items_paced json : respects paced (get_items E json).
Proof.
  unfold get_items. respect. generalize (@nil item).
  induction a as [|it rest IH]; intros items; cbn [get_items_loop]; respect.
  all: apply IH.
Qed.

Lemma save_image_paced u filename : respects paced (save_image E u filename).
Proof using answered. unfold save_image. respect. Qed.

Lemma flush_paced path : respects paced (flush_ E path).
Proof. unfold flush_. respect. Qed.

Hint Resolve get_json_paced get_page_count_paced get_items_paced
  save_image_paced flush_paced : respects.

Lemma writerow_paced path fields : respects paced (writerow E path fields).
Proof. unfold writerow. respect. Qed.

Hint Resolve writerow_paced : respects.

Lemma save_items_paced items filename first_page :
  respects paced (save_items E items filename first_page).
Proof using answered.
  unfold save_items, closing. respect.
  induction items as [|it rest IH]; cbn [save_items_loop]; respect.
Qed.

Hint Resolve save_items_paced : respects.

Lemma scrape_loop_paced pages page_count :
  forall json, respects paced (scrape_loop E pages page_count json).
Proof using answered.
  induction pages as [|page rest IH]; intros json; cbn [scrape_loop].
  - respect.
  - unfold fetch_page, extract_and_write. respect.
Qed.

(** X28: in a whole run of [scrape] where every request is answered or
    fails with a transport error, whatever else the server and the disk do
    and however the run ends, every request sent is immediately followed by
    the delay of [SLEEP_TIME]: no two requests are sent in a row. *)
Theorem scrape_is_throttled s :
  exists evs,
    trace (snd (scrape E s)) = trace s ++ evs /\ throttled evs = true.
Proof using answered.
  assert (H : respects paced (scrape E)); [|exact (H s)].
  unfold scrape, ensure_image_dir. respect. apply scrape_loop_paced.
Qed.

End Paced.

Section Confined.

Variable E : env.

#[local] Instance confined_preorder : PreOrder (confined E).
Proof.
  split.
  - intros s. split; reflexivity.
  - intros s1 s2 s3 [F1 D1] [F2 D2]. split.
    + intros path Hout Himg. now rewrite F2, F1.
    + intros dir Hdir. now rewrite D2, D1.
Qed.

Lemma confined_idle s s' :
  files s' = files s -> dirs s' = dirs s -> confined E s s'.
Proof. intros HF HD. split; intros; now rewrite ?HF, ?HD. Qed.

(** The paths the program may write to. *)
Lemma confined_with_file path data s s' :
  path = DEFAULT_FILENAME \/ (exists u, path = image_filename E u) ->
  files s' = files s -> dirs s' = dirs s ->
  confined E s (with_file path data s').
Proof.
  intros Hpath HF HD. split.
  - intros p Hout Himg. cbn. rewrite lookup_insert_ne, HF; [reflexivity|].
    intros <-. destruct Hpath as [->|[u ->]]; [now apply Hout|now apply (Himg u)].
  - intros dir _. cbn. now rewrite HD.
Qed.

Lemma print_confined m : respects (confined E) (print m).
Proof. intros s. now apply confined_idle. Qed.

Lemma path_exists_confined path : respects (confined E) (path_exists path).
Proof. intros s. reflexivity. Qed.

Lemma open_confined path m :
  path = DEFAULT_FILENAME \/ (exists u, path = image_filename E u) ->
  respects (confined E) (open_ E path m).
Proof.
  intros Hpath s. rewrite open_run.
  destruct (open_raises E path m (clock s)).
  - now apply confined_idle.
  - now apply confined_with_file.
Qed.

Lemma write_confined path data :
  path = DEFAULT_FILENAME \/ (exists u, path = image_filename E u) ->
  respects (confined E) (write_ E path data).
Proof.
  intros Hpath s. rewrite write_run.
  destruct (write_raises E path (clock s)).
  - now apply confined_idle.
  - now apply confined_with_file.
Qed.

Lemma mkdir_confined : respects (confined E) (mkdir E IMAGE_DIR).
Proof.
  intros s. unfold mkdir. rewrite (bind_ok _ _ _ _ _ (tick_run s)).
  destruct (mkdir_raises E IMAGE_DIR (clock s)).
  - now apply confined_idle.
  - split; [reflexivity|]. intros dir Hdir. cbn.
    rewrite elem_of_union, elem_of_singleton. tauto.
Qed.

Lemma get_response_confined u params :
  respects (confined E) (get_response E u params).
Proof.
  intros s.
  destruct (get_response_loop_state E MAX_RETRIES u params s)
    as (r & k & evs & Hrun & _).
  unfold get_response. rewrite Hrun. now apply confined_idle.
Qed.

Lemma tick_confined : respects (confined E) tick.
Proof. intros s. now apply confined_idle. Qed.

Lemma get_pending_confined : respects (confined E) get_pending.
Proof. intros s. reflexivity. Qed.

Lemma set_pending_confined data : respects (confined E) (set_pending data).
Proof. intros s. now apply confined_idle. Qed.

Lemma output_is_allowed :
  DEFAULT_FILENAME = DEFAULT_FILENAME
  \/ (exists u, DEFAULT_FILENAME = image_filename E u).
Proof. now left. Qed.

Lemma image_is_allowed u :
  image_filename E u = DEFAULT_FILENAME
  \/ (exists u', image_filename E u = image_filename E u').
Proof. right. now exists u. Qed.

Hint Resolve print_confined path_exists_confined open_confined write_confined
  mkdir_confined get_response_confined tick_confined get_pending_confined
  set_pending_confined output_is_allowed image_is_allowed
  : respects.

Lemma get_json_confined page : respects (confined E) (get_json E page).
Proof. unfold get_json. respect. Qed.

Lemma get_page_count_confined json :
  respects (confined E) (get_page_count json).
Proof. unfold get_page_count. respect. Qed.

Lemma get_items_confined json : respects (confined E) (get_items E json).
Proof.
  unfold get_items. respect. generalize (@nil item).
  induction a as [|it rest IH]; intros items; cbn [get_items_loop]; respect.
  all: apply IH.
Qed.

Lemma save_image_confined u :
  respects (confined E) (save_image E u (image_filename E u)).
Proof. unfold save_image. respect. Qed.

Hint Resolve get_json_confined get_page_count_confined get_items_confined
  save_image_confined : respects.

Lemma save_items_confined items first_page :
  respects (confined E) (save_items E items DEFAULT_FILENAME first_page).
Proof.
  unfold save_items, closing, writerow, flush_. respect.
  induction items as [|it rest IH]; cbn [save_items_loop];
    unfold writerow, flush_; respect.
Qed.

Hint Resolve save_items_confined : respects.

Lemma scrape_loop_confined pages page_count :
  forall json, respects (confined E) (scrape_loop E pages page_count json).
Proof.
  induction pages as [|page rest IH]; intros json; cbn [scrape_loop].
  - respect.
  - unfold fetch_page, extract_and_write. respect.
Qed.

(** X29: a run of [scrape], however it ends, changes no file other than
    the output file and files in the image directory named after images,
    and creates no directory other than the image directory. *)
Theorem scrape_writes_only_the_output_and_images s :
  (forall path,
     path <> DEFAULT_FILENAME ->
     (forall u, path <> image_filename E u) ->
     files (snd (scrape E s)) !! path = files s !! path)
  /\ (forall dir, dir <> IMAGE_DIR ->
                  dir ∈ dirs (snd (scrape E s)) <-> dir ∈ dirs s).
Proof.
  assert (H : respects (confined E) (scrape E)); [|exact (H s)].
  unfold scrape, ensure_image_dir. respect. apply scrape_loop_confined.
Qed.

End Confined.

(** X30: the first block of [scrape] never raises; it lets the run go on
    only when the image directory path exists afterwards, and when it
    stops the run the last thing printed is that the directory cannot be
    created. *)
Theorem ensure_image_dir_lets_through_only_with_a_directory E s :
  exists ready s',
    ensure_image_dir E s = (Ok ready, s')
    /\ (if ready
        then IMAGE_DIR ∈ dirs s' \/ is_Some (files s' !! IMAGE_DIR)
        else last (trace s') = Some (EvPrint MsgMkdir)).
Proof.
  unfold ensure_image_dir, path_exists. erewrite bind_ok by reflexivity.
  destruct (bool_decide (IMAGE_DIR ∈ dirs s)) eqn:Hdir.
  - exists true, s. split; [reflexivity|]. left.
    now apply bool_decide_eq_true_1 in Hdir.
  - destruct (bool_decide (is_Some (files s !! IMAGE_DIR))) eqn:Hfile.
    + exists true, s. split; [reflexivity|]. right.
      now apply bool_decide_eq_true_1 in Hfile.
    + cbn [orb].
      destruct (mkdir_raises E IMAGE_DIR (clock s)) eqn:Hraise.
      * assert (Hmk : mkdir E IMAGE_DIR s = (Exc OSError, later 1 s)).
        { unfold mkdir. run tick_run. now rewrite Hraise. }
        erewrite bind_ok by (apply attempt_run, Hmk). cbv beta iota.
        run print_run. exists false. eexists. split; [reflexivity|].
        cbn. apply last_snoc.
      * assert (Hmk : exists s', mkdir E IMAGE_DIR s = (Ok tt, s')
                                 /\ IMAGE_DIR ∈ dirs s').
        { unfold mkdir. run tick_run. rewrite Hraise. eexists.
          split; [reflexivity|]. cbn.
          rewrite elem_of_union, elem_of_singleton. now left. }
        destruct Hmk as (s' & Hmk & Hin).
        erewrite bind_ok by (apply attempt_run, Hmk).
        exists true, s'. split; [reflexivity|now left].
Qed.

(** ** Sample runs of the further properties *)

Lemma get_response_status_error_is_final_witness :
  get_response failing_shop JSON_URL (Some 0%nat) fresh =
  (Ok None,
   later 1 (log [EvGet JSON_URL (Some 0%nat); EvSleep SLEEP_TIME;
                 EvPrint (MsgStatus 500 JSON_URL)] fresh)).
Proof.
  apply (get_response_status_error_is_final failing_shop JSON_URL
           (Some 0%nat) fresh server_error); reflexivity.
Defined.

Lemma get_response_retries_until_answer_witness :
  get_response flaky_shop boots_url None fresh =
  (Ok (Some picture),
   later 3
     (log (concat (replicate 3 [EvGet boots_url None; EvSleep SLEEP_TIME]))
        fresh)).
Proof.
  apply (get_response_retries_until_answer flaky_shop boots_url None fresh 2
           picture).
  - unfold MAX_RETRIES. lia.
  - intros i Hi. destruct i as [|[|i]]; [now split|now split|lia].
  - reflexivity.
  - reflexivity.
Defined.

Lemma get_response_answers_have_status_ok_witness :
  status_code picture = HTTP_OK.
Proof.
  apply (get_response_answers_have_status_ok shop boots_url None fresh picture
           (snd (get_response shop boots_url None fresh))).
  reflexivity.
Defined.

Lemma get_json_returns_false_or_a_successful_payload_witness :
  shop_payload 0 = PyFalse
  \/ (truthy (shop_payload 0) = true
      /\ exists kvs flag,
           shop_payload 0 = JObj kvs /\ assoc "success" kvs = Some flag
           /\ truthy flag = true).
Proof.
  apply (get_json_returns_false_or_a_successful_payload shop 0 fresh).
  reflexivity.
Defined.

Lemma get_json_raises_on_a_payload_that_is_no_object_witness :
  get_json list_shop 0 fresh =
  (Exc AttributeError,
   later 1 (log [EvGet JSON_URL (Some 0%nat); EvSleep SLEEP_TIME] fresh)).
Proof.
  apply (get_json_raises_on_a_payload_that_is_no_object list_shop 0 fresh
           (page_response (JArr [])) (JArr [])).
  - reflexivity.
  - reflexivity.
  - reflexivity.
  - intros kvs. discriminate.
Defined.

Lemma re_sub_spaces_keeps_single_spaced_witness :
  re_sub_spaces "Leather boots" = "Leather boots".
Proof. apply re_sub_spaces_keeps_single_spaced. reflexivity. Defined.

Lemma get_items_accounts_for_every_entry_witness :
  exists items msgs,
    get_items shop (listing 1 [boots; unpictured; sandals]) fresh
    = (Ok items, log msgs fresh)
    /\ (length items + length msgs)%nat = 3%nat.
Proof.
  apply (get_items_accounts_for_every_entry shop
           (listing 1 [boots; unpictured; sandals])
           [boots; unpictured; sandals] fresh).
  reflexivity.
Defined.

Lemma get_items_returns_well_formed_records_witness :
  Forall well_formed [boots_item; sandals_item].
Proof.
  apply (get_items_returns_well_formed_records shop (shop_payload 0) fresh).
  reflexivity.
Defined.

Lemma get_items_skips_entries_that_are_no_objects_witness :
  fst (get_items shop
         (JObj [("success", JBool true);
                ("data", JObj [("results", JObj [("boots", JInt 1)])])])
         fresh) = Ok [].
Proof.
  apply (get_items_skips_entries_that_are_no_objects shop _ [JStr "boots"]).
  - reflexivity.
  - constructor; [|constructor]. intros kvs. discriminate.
Defined.

Lemma get_items_of_joined_results_witness :
  exists items1 items2,
    fst (get_items shop (listing 1 [boots]) fresh) = Ok items1
    /\ fst (get_items shop (listing 1 [sandals]) fresh) = Ok items2
    /\ fst (get_items shop (listing 1 [boots; sandals]) fresh)
       = Ok (items1 ++ items2).
Proof.
  apply (get_items_of_joined_results shop (listing 1 [boots])
           (listing 1 [sandals]) (listing 1 [boots; sandals])
           [boots] [sandals] fresh); reflexivity.
Defined.

Lemma last_segment_follows_the_last_slash_witness :
  last_segment "boots.jpg" = "boots.jpg"
  /\ forall front, last_segment (front +:+ String slash "boots.jpg")
                   = "boots.jpg".
Proof. apply last_segment_follows_the_last_slash. reflexivity. Defined.

Lemma save_image_stores_the_body_witness :
  exists s',
    save_image shop boots_url boots_path earlier_run = (Ok tt, s')
    /\ files s' = <[boots_path := "JPEG"]> (files earlier_run)
    /\ trace s' =
       trace (snd (get_response shop boots_url None earlier_run))
       ++ [EvOpen boots_path ModeWB].
Proof.
  apply (save_image_stores_the_body shop boots_url boots_path earlier_run
           picture (snd (get_response shop boots_url None earlier_run)));
    reflexivity.
Defined.

Lemma save_image_leaves_an_empty_file_when_the_write_raises_witness :
  exists s',
    save_image full_disk boots_url boots_path earlier_run = (Ok tt, s')
    /\ files s' = <[boots_path := EmptyString]> (files earlier_run)
    /\ trace s' =
       trace (snd (get_response full_disk boots_url None earlier_run))
       ++ [EvOpen boots_path ModeWB; EvPrint MsgImageDisk].
Proof.
  apply (save_image_leaves_an_empty_file_when_the_write_raises full_disk
           boots_url boots_path earlier_run picture
           (snd (get_response full_disk boots_url None earlier_run)));
    reflexivity.
Defined.

Lemma save_items_does_nothing_when_the_open_raises_witness :
  let s' := snd (save_items shop_readonly [boots_item] DEFAULT_FILENAME true
                   earlier_run) in
  files s' = files earlier_run
  /\ clock s' = S (clock earlier_run)
  /\ trace s' =
     trace earlier_run ++ [EvOpen DEFAULT_FILENAME ModeW; EvPrint MsgCsvDisk].
Proof.
  apply (save_items_does_nothing_when_the_open_raises shop_readonly
           [boots_item] DEFAULT_FILENAME true earlier_run).
  reflexivity.
Defined.

(** On a full disk the two pictures are requested before the error is
    printed, and the old rows stay. *)
Lemma save_items_notices_a_full_disk_at_the_close_witness :
  exists s' evs,
    save_items full_disk [boots_item; sandals_item] DEFAULT_FILENAME false
      earlier_run = (Ok tt, s')
    /\ trace s' =
       trace earlier_run ++ EvOpen DEFAULT_FILENAME ModeA :: evs
       ++ [EvPrint MsgCsvDisk]
    /\ Forall (fun it => In (EvGet (image it) None) evs)
         [boots_item; sandals_item]
    /\ files s' !! DEFAULT_FILENAME = Some "old rows".
Proof.
  apply (save_items_notices_a_full_disk_at_the_close full_disk
           [boots_item; sandals_item] false earlier_run); try reflexivity.
  - intros u t _. reflexivity.
  - right. discriminate.
Defined.

(** Where the buffer spills at every row, a full disk is noticed at the
    first row: the second picture is not requested. *)
Lemma full_disk_noticed_at_the_first_row_when_the_buffer_spills :
  save_items (with_hasty_buffer full_disk) [boots_item; sandals_item]
    DEFAULT_FILENAME false earlier_run =
  (Ok tt,
   with_file boots_path EmptyString
     (later 6
        (log [EvOpen DEFAULT_FILENAME ModeA; EvGet boots_url None; EvSleep 1;
              EvOpen boots_path ModeWB; EvPrint MsgImageDisk;
              EvPrint MsgCsvDisk] earlier_run))).
Proof. vm_compute. reflexivity. Qed.

(** With a disk that takes every write, the output file is the same
    whether the rows are written out one by one or all at the close. *)
Lemma same_output_when_the_buffer_spills :
  files (snd (scrape (with_hasty_buffer shop) fresh)) !! DEFAULT_FILENAME =
  Some (header_line +:+ boots_line +:+ sandals_line +:+ trainers_line).
Proof. vm_compute. reflexivity. Qed.

Lemma save_items_in_two_calls_or_in_one_witness :
  files (snd (save_items shop [sandals_item] DEFAULT_FILENAME false
                (snd (save_items shop [boots_item] DEFAULT_FILENAME true
                        fresh)))) !! DEFAULT_FILENAME
  = files (snd (save_items shop [boots_item; sandals_item] DEFAULT_FILENAME
                  true fresh)) !! DEFAULT_FILENAME.
Proof.
  apply (save_items_in_two_calls_or_in_one shop [boots_item] [sandals_item]
           true fresh); try reflexivity.
  intros u t _. reflexivity.
Defined.

Lemma scrape_is_throttled_witness :
  exists evs,
    trace (snd (scrape shop fresh)) = trace fresh ++ evs
    /\ throttled evs = true.
Proof.
  apply (scrape_is_throttled shop).
  intros u params t _. reflexivity.
Defined.

Lemma scrape_stops_when_the_image_directory_cannot_be_made_witness :
  scrape no_image_dir fresh = (Ok tt, log [EvPrint MsgMkdir] (later 1 fresh)).
Proof.
  apply scrape_stops_when_the_image_directory_cannot_be_made.
  - apply not_elem_of_empty.
  - reflexivity.
  - reflexivity.
Defined.

Lemma scrape_stops_when_the_first_page_fails_witness :
  scrape failing_shop fresh =
  (Ok tt,
   log [EvPrint MsgFatal]
     (snd (get_json failing_shop 0
             (log [EvPrint MsgFirstPage]
                (snd (ensure_image_dir failing_shop fresh))))))
  /\ files (snd (get_json failing_shop 0
                   (log [EvPrint MsgFirstPage]
                      (snd (ensure_image_dir failing_shop fresh)))))
     = files fresh.
Proof.
  apply (scrape_stops_when_the_first_page_fails failing_shop fresh
           (snd (ensure_image_dir failing_shop fresh))); reflexivity.
Defined.

Lemma scrape_raises_on_a_page_count_that_is_no_integer_witness :
  scrape text_count_shop fresh =
  (Exc TypeError,
   snd (get_json text_count_shop 0
          (log [EvPrint MsgFirstPage]
             (snd (ensure_image_dir text_count_shop fresh)))))
  /\ files (snd (get_json text_count_shop 0
                   (log [EvPrint MsgFirstPage]
                      (snd (ensure_image_dir text_count_shop fresh)))))
     = files fresh.
Proof.
  eapply (scrape_raises_on_a_page_count_that_is_no_integer text_count_shop
            fresh (snd (ensure_image_dir text_count_shop fresh))).
  - reflexivity.
  - reflexivity.
  - reflexivity.
  - reflexivity.
  - intros z. discriminate.
  - intros b. discriminate.
Defined.

Lemma scrape_reports_done_on_a_negative_page_count_witness :
  scrape negative_count_shop fresh =
  (Ok tt,
   log [EvPrint MsgDone]
     (snd (get_json negative_count_shop 0
             (log [EvPrint MsgFirstPage]
                (snd (ensure_image_dir negative_count_shop fresh))))))
  /\ files (snd (get_json negative_count_shop 0
                   (log [EvPrint MsgFirstPage]
                      (snd (ensure_image_dir negative_count_shop fresh)))))
     = files fresh.
Proof.
  eapply (scrape_reports_done_on_a_negative_page_count negative_count_shop
            fresh (snd (ensure_image_dir negative_count_shop fresh))
            (listing (-1) [boots]) _ (-1)).
  - reflexivity.
  - reflexivity.
  - reflexivity.
  - reflexivity.
  - lia.
Defined.
